(** * The Python datasource adapter of python-mapnik

    A shallow embedding of [src/python_datasource.cpp]: the adapter that
    presents a Python object as a mapnik datasource, and the featureset
    that walks the Python iterable a feature query returned.

    The C++ code talks to three things that live outside the file: the
    embedded Python interpreter (through Boost.Python), the mapnik types
    it fills in ([box2d], [query], ...), and Boost.Optional.  Each of them
    is modelled below by what the adapter can observe of it:
    - a Python value is a term of [pyobj]; objects are finite maps from
      attribute names to values, looked up afresh on every access;
    - every access to the interpreter is recorded as an [event], so that
      "reads attribute x" and "calls f" are statements about a trace;
    - a C++ exception is an [outcome] other than [Ok], one constructor per
      exception type that the file throws or lets through. *)

From Stdlib Require Import ZArith Ascii String List Floats Lia.
From stdpp Require Import base option list gmap strings.
Import ListNotations.
Open Scope string_scope.
Open Scope Z_scope.
Open Scope list_scope.

(** ** Host (mapnik) types *)

(** Modelled from the spec: [box2d<double>] is declared in mapnik's
    headers, which are not part of the source file.  A box is "four
    floating-point bounds (min-x, min-y, max-x, max-y)". *)
Record box2d : Type := Box2d {
  minx_ : float;
  miny_ : float;
  maxx_ : float;
  maxy_ : float
}.

(** Modelled from the spec: the setters [envelope()] calls are declared
    with [box2d].  Each overwrites one bound and leaves the other three
    alone; "no normalization is performed". *)
Definition set_minx (b : box2d) (v : float) : box2d :=
  {| minx_ := v; miny_ := miny_ b; maxx_ := maxx_ b; maxy_ := maxy_ b |}.
Definition set_miny (b : box2d) (v : float) : box2d :=
  {| minx_ := minx_ b; miny_ := v; maxx_ := maxx_ b; maxy_ := maxy_ b |}.
Definition set_maxx (b : box2d) (v : float) : box2d :=
  {| minx_ := minx_ b; miny_ := miny_ b; maxx_ := v; maxy_ := maxy_ b |}.
Definition set_maxy (b : box2d) (v : float) : box2d :=
  {| minx_ := minx_ b; miny_ := miny_ b; maxx_ := maxx_ b; maxy_ := v |}.

(** [box2d<double>::intersects] as mapnik defines it, used to instantiate
    the host parameter of the datasource on concrete inputs:
    [!(other.minx_ > maxx_ || other.maxx_ < minx_ ||
       other.miny_ > maxy_ || other.maxy_ < miny_)]. *)
Definition box2d_intersects (b other : box2d) : bool :=
  negb (PrimFloat.ltb (maxx_ b) (minx_ other)
        || PrimFloat.ltb (maxx_ other) (minx_ b)
        || PrimFloat.ltb (maxy_ b) (miny_ other)
        || PrimFloat.ltb (maxy_ other) (miny_ b)).

(** A [query]: the adapter only ever asks it for its bounding box. *)
Record query : Type := Query { get_bbox : box2d }.

Record coord2d : Type := Coord2d { coord_x : float; coord_y : float }.

(** A feature record of the host; its content is opaque to the adapter. *)
Record feature : Type := Feature { feature_id : Z }.

(** [feature_ptr] is a shared pointer: [None] is the null pointer, which
    is also the terminal result of a featureset. *)
Definition feature_ptr : Type := option feature.

(** Modelled from the spec: the two enumerations the adapter casts a
    [long] to are declared in mapnik's headers.  A value is "an integer
    classification", represented by the integer it was cast from. *)
Record datasource_t : Type := Datasource_t { datasource_t_value : Z }.
Record datasource_geometry_t : Type :=
  Datasource_geometry_t { datasource_geometry_t_value : Z }.

(** Modelled from the spec: the casts [datasource::datasource_t(l)] and
    [datasource_geometry_t(l)] of a [long].  The enumerations hold "a
    small integer"; they are taken with the 8-bit unsigned underlying
    type that mapnik 3 declares them with, so that the cast narrows: it
    keeps the integer modulo 256. *)
Definition datasource_t_of_long (l : Z) : datasource_t :=
  Datasource_t (l mod 256).
Definition datasource_geometry_t_of_long (l : Z) : datasource_geometry_t :=
  Datasource_geometry_t (l mod 256).

(** ** Python values *)

(** A raised Python exception as [PyErr_Fetch] hands it over: the type,
    the value (its [str], absent when no value was set) and the already
    rendered traceback lines (empty when there is no traceback).  The
    last field says what happens when the error is rendered as text:
    nothing ([None]), or a second error, given by its type and message
    (a message that cannot be encoded, a [traceback] module that cannot
    be imported). *)
Record pyexc : Type := PyExc {
  exc_type : string;
  exc_value : option string;
  exc_traceback : string;
  exc_format_error : option (string * string)
}.

#[warnings="-register-all"]
Inductive pyobj : Type :=
| PyNone
| PyInt (z : Z)
| PyFloat (d : float)
| PyStr (s : string)
| PyInstance (attrs : gmap string pyobj)
    (** an object with its data attributes; an object that can be
        iterated is a [PyIterable] *)
| PyCallable (id : nat)
    (** a function or bound method; what it does is the interpreter's *)
| PyIterable (items : list pyobj) (fin : option pyexc)
    (** any object that can be iterated: iterating it yields [items],
        then stops or raises [fin] *)
| PyQuery (q : query)
| PyCoord (pt : coord2d)
| PyFeature (f : feature).
    (** host values handed to or received from Python *)

Inductive pyresult : Type :=
| Returns (v : pyobj)
| Raises (e : pyexc).

Definition is_none (v : pyobj) : bool :=
  match v with PyNone => true | _ => false end.

Definition attribute_error (key : string) : pyexc :=
  {| exc_type := "AttributeError";
     exc_value := Some ("object has no attribute '" +:+ key +:+ "'");
     exc_traceback := "";
     exc_format_error := None |}.

Definition type_error (msg : string) : pyexc :=
  {| exc_type := "TypeError"; exc_value := Some msg; exc_traceback := "";
     exc_format_error := None |}.

Definition overflow_error (msg : string) : pyexc :=
  {| exc_type := "OverflowError"; exc_value := Some msg; exc_traceback := "";
     exc_format_error := None |}.

(** The attribute [key] of [o], [None] when [o] has no such attribute.
    Only instances carry the attributes a datasource is asked for.  An
    attribute is a plain value: every lookup is a fresh one, and two
    lookups of the same attribute give the same value.  A property whose
    value changes from one read to the next is not a value of this
    model. *)
Definition attr_of (o : pyobj) (key : string) : option pyobj :=
  match o with
  | PyInstance attrs => attrs !! key
  | _ => None
  end.

(** ** Outcomes, events and the monad of interpreter-touching code *)

(** How a C++ call ends. *)
Inductive outcome (A : Type) : Type :=
| Ok (a : A)
| PyErr (e : pyexc)
    (** [boost::python::error_already_set], [e] being the pending error *)
| DsErr (msg : string)
    (** [mapnik::datasource_exception] with its message *)
| BadOptional
    (** [boost::bad_optional_access], thrown by [value()] on [boost::none] *)
| Undefined.
    (** no defined behaviour (a null handle dereferenced) *)
Arguments Ok {A} a.
Arguments PyErr {A} e.
Arguments DsErr {A} msg.
Arguments BadOptional {A}.
Arguments Undefined {A}.

(** What the interpreter sees of the adapter. *)
Inductive event : Type :=
| GilEnsure
| GilRelease
| GetAttr (o : pyobj) (key : string)
| Call (f : pyobj) (args : list pyobj)
| GetIter (o : pyobj)
| IterNext
| ErrFetch
    (** [PyErr_Fetch] and [PyErr_NormalizeException] in the handler *)
| FormatException.
    (** the rendering in the handler: [import("traceback")], the lookup
        of [format_exception], its call and the [join] of the lines *)

Definition M (A : Type) : Type := (outcome A * list event)%type.

#[global] Instance M_ret : MRet M := fun A (a : A) => (Ok a, []).

#[global] Instance M_bind : MBind M := fun A B (f : A -> M B) (m : M A) =>
  match m with
  | (Ok a, t) => let '(o, t') := f a in (o, t ++ t')
  | (PyErr e, t) => (PyErr e, t)
  | (DsErr msg, t) => (DsErr msg, t)
  | (BadOptional, t) => (BadOptional, t)
  | (Undefined, t) => (Undefined, t)
  end.

Definition emit (e : event) : M unit := (Ok tt, [e]).
Definition throw_error_already_set {A} (e : pyexc) : M A := (PyErr e, []).
Definition throw_datasource_exception {A} (msg : string) : M A := (DsErr msg, []).

(** [catch (boost::python::error_already_set) { handler }]: every other
    exception passes through. *)
Definition catch_error_already_set {A} (body : M A) (handler : pyexc -> M A) : M A :=
  match body with
  | (PyErr e, t) => let '(o, t') := handler e in (o, t ++ t')
  | other => other
  end.

(** The attribute names read, in order, and the calls made, in order. *)
Definition attr_reads (t : list event) : list string :=
  omap (fun e => match e with GetAttr _ key => Some key | _ => None end) t.

Definition calls (t : list event) : list (pyobj * list pyobj) :=
  omap (fun e => match e with Call f args => Some (f, args) | _ => None end) t.

(** ** Boost.Python and Boost.Optional, as the adapter uses them *)

(** [o.attr(key)] converted to an [object]: one lookup, which raises
    [AttributeError] when the attribute is missing. *)
Definition attr (o : pyobj) (key : string) : M pyobj :=
  _ ← emit (GetAttr o key);
  match attr_of o key with
  | Some v => mret v
  | None => throw_error_already_set (attribute_error key)
  end.

(** [boost::optional<T>::value()]. *)
Definition value {A} (o : option A) : M A :=
  match o with
  | Some a => mret a
  | None => (BadOptional, [])
  end.

(** The range of a C [long] (LP64). *)
Definition LONG_MIN : Z := - 2 ^ 63.
Definition LONG_MAX : Z := 2 ^ 63 - 1.

(** [extract<long>(v)]: Python integers convert, when they fit. *)
Definition extract_long (v : pyobj) : M Z :=
  match v with
  | PyInt z =>
      if (LONG_MIN <=? z) && (z <=? LONG_MAX) then mret z
      else throw_error_already_set
             (overflow_error "Python int too large to convert to C long")
  | _ => throw_error_already_set
           (type_error "No registered converter was able to produce a C++ rvalue of type long")
  end.

(** The double nearest to a Python integer, as [float(z)] computes it;
    [None] when the integer is beyond the range of a double. *)
Definition long_as_double (z : Z) : option float :=
  match SpecFloat.binary_normalize 53 1024 z 0 false with
  | S754_infinity _ => None
  | sf => Some (SF2Prim sf)
  end.

(** [extract<double> ex(v); ex.check()]: floats and integers pass. *)
Definition extract_double_check (v : pyobj) : bool :=
  match v with
  | PyInt _ | PyFloat _ => true
  | _ => false
  end.

(** The error a Python integer beyond the range of a double raises. *)
Definition float_overflow : pyexc :=
  overflow_error "int too large to convert to float".

(** [ex()]: the conversion itself. *)
Definition extract_double (v : pyobj) : M float :=
  match v with
  | PyFloat d => mret d
  | PyInt z =>
      match long_as_double z with
      | Some d => mret d
      | None => throw_error_already_set float_overflow
      end
  | _ => throw_error_already_set
           (type_error "No registered converter was able to produce a C++ rvalue of type double")
  end.

(** [extract<feature_ptr>(v)]: a wrapped feature gives its pointer, [None]
    gives the null pointer. *)
Definition extract_feature_ptr (v : pyobj) : M feature_ptr :=
  match v with
  | PyFeature f => mret (Some f)
  | PyNone => mret None
  | _ => throw_error_already_set
           (type_error "No registered converter was able to produce a C++ rvalue of type feature_ptr")
  end.

(** The iterator [ob.attr("__iter__")()] gives, here the items still to
    come and how the iteration ends. *)
Record py_iterator : Type := PyIterator {
  pending : list pyobj;
  finish : option pyexc
}.

Definition chars_of (s : string) : list pyobj :=
  map (fun c => PyStr (String c EmptyString)) (list_ascii_of_string s).

(** [ob.attr("__iter__")()].  The values that can be iterated are the
    [PyIterable] and the strings; for the others the lookup of
    "__iter__" raises [AttributeError].  (An instance is taken to carry
    data attributes only: one with an "__iter__" attribute of its own is
    not a value of this model.) *)
Definition get_iter (ob : pyobj) : M py_iterator :=
  _ ← emit (GetIter ob);
  match ob with
  | PyIterable items fin => mret {| pending := items; finish := fin |}
  | PyStr s => mret {| pending := chars_of s; finish := None |}
  | _ => throw_error_already_set (attribute_error "__iter__")
  end.

(** [PyIter_Next]: the next item, or no item, with or without an error
    set; an iterator that has stopped or raised stays stopped. *)
Definition PyIter_Next (it : py_iterator) : option pyobj * option pyexc * py_iterator :=
  match pending it with
  | x :: rest => (Some x, None, {| pending := rest; finish := finish it |})
  | [] => (None, finish it, {| pending := []; finish := None |})
  end.

(** ** The anonymous namespace *)

(** [ensure_gil lock;] guards the rest of its block: the lock is taken
    on entry and given back on every way out, an exception included. *)
Definition ensure_gil {A} (block : M A) : M A :=
  let '(o, t) := block in (o, GilEnsure :: t ++ [GilRelease]).

Definition newline : string := String "010"%char EmptyString.

(** [traceback.format_exception(exc, val, tb)], joined: the traceback
    lines, then the type, then the value when it prints as something. *)
Definition format_exception (e : pyexc) (val : string) : string :=
  exc_traceback e +:+ exc_type e
    +:+ (if String.eqb val "" then "" else ": " +:+ val) +:+ newline.

(** [PyErr_NormalizeException]: afterwards the value is an instance of
    the type, also for an error that was raised without one; that
    instance is made from no argument and prints as the empty string. *)
Definition PyErr_NormalizeException (e : pyexc) : option string :=
  Some (default "" (exc_value e)).

(** The text [extractException()] returns for the pending error [e],
    when rendering it does not fail. *)
Definition exception_text (e : pyexc) : string :=
  match PyErr_NormalizeException e with
  | None => "<class '" +:+ exc_type e +:+ "'>"
  | Some val => format_exception e val
  end.

(** The second error, raised while the first is rendered. *)
Definition format_error (err : string * string) : pyexc :=
  {| exc_type := fst err; exc_value := Some (snd err); exc_traceback := "";
     exc_format_error := None |}.

(** [extract<std::string>(text)], the last step of either branch: it
    throws, as the steps before it may, when rendering [e] fails. *)
Definition extract_string (e : pyexc) (text : string) : M string :=
  match exc_format_error e with
  | None => mret text
  | Some err => throw_error_already_set (format_error err)
  end.

(** [extractException()] has no handler of its own: an error raised
    while it renders the pending one leaves it as [error_already_set]. *)
Definition extractException (e : pyexc) : M string :=
  _ ← emit ErrFetch;
  match PyErr_NormalizeException e with
  | None => extract_string e ("<class '" +:+ exc_type e +:+ "'>")
  | Some val =>
      _ ← emit FormatException;
      extract_string e (format_exception e val)
  end.

(** The handler every method of the datasource ends with:
    [catch (error_already_set) { throw datasource_exception(extractException()); }] *)
Definition rethrow_as_datasource_exception {A} (body : M A) : M A :=
  catch_error_already_set body
    (fun e => msg ← extractException e; throw_datasource_exception msg).

(** ** [boost::python::stl_input_iterator<feature_ptr>] *)

Module stl_input_iterator.

(** [it_] is the Python iterator ([None] in a default-constructed
    iterator), [ob_] the item it stands on (null past the end). *)
Record t : Type := Make {
  it_ : option py_iterator;
  ob_ : option pyobj
}.

Definition default : t := {| it_ := None; ob_ := None |}.

(** [ob_ = PyIter_Next(it_); if (PyErr_Occurred()) throw ...]: the
    iterator has moved even when the step throws. *)
Definition increment (i : t) : M unit * t :=
  match it_ i with
  | None => ((Undefined, []), i)
  | Some it =>
      let '(item, err, it') := PyIter_Next it in
      let i' := {| it_ := Some it'; ob_ := item |} in
      (_ ← emit IterNext;
       match err with
       | Some e => throw_error_already_set e
       | None => mret tt
       end, i')
  end.

(** The constructor from an iterable fetches the first item. *)
Definition from_object (ob : pyobj) : M t :=
  it ← get_iter ob;
  let '(step, i) := increment {| it_ := Some it; ob_ := None |} in
  _ ← step;
  mret i.

(** [!this->ob_ == !that.ob_] *)
Definition is_null (h : option pyobj) : bool :=
  match h with None => true | Some _ => false end.

Definition equal (i that : t) : bool :=
  Bool.eqb (is_null (ob_ i)) (is_null (ob_ that)).

(** [*i]: the current item converted to a [feature_ptr]. *)
Definition dereference (i : t) : M feature_ptr :=
  match ob_ i with
  | Some v => extract_feature_ptr v
  | None => (Undefined, [])
  end.

(** [*(i++)] on an input iterator: the value is read first, then the
    iterator moves; when reading throws the iterator stays. *)
Definition post_increment (i : t) : M feature_ptr * t :=
  match dereference i with
  | (Ok v, t0) =>
      let '(step, i') := increment i in
      (_ ← ((Ok tt, t0) : M unit); _ ← step; mret v, i')
  | failed => (failed, i)
  end.

End stl_input_iterator.

(** ** [python_featureset] *)

Module python_featureset.

(** Modelled from the spec: the class is declared in
    [python_datasource.hpp]; its state is "a host-side begin/end cursor
    pair" over the interpreter-side iterator. *)
Record t : Type := Make {
  begin_ : stl_input_iterator.t;
  end_ : stl_input_iterator.t
}.

(** [python_featureset::python_featureset(object iterator)] *)
Definition python_featureset (iterator : pyobj) : M t :=
  ensure_gil
    (b ← stl_input_iterator.from_object iterator;
     mret {| begin_ := b; end_ := stl_input_iterator.default |}).

(** [python_featureset::next()]: the returned feature and the adapter
    afterwards. *)
Definition next (self : t) : M feature_ptr * t :=
  if stl_input_iterator.equal (begin_ self) (end_ self)
  then (mret None, self)
  else
    let '(r, b) := stl_input_iterator.post_increment (begin_ self) in
    (ensure_gil r, {| begin_ := b; end_ := end_ self |}).

(** [python_featureset::~python_featureset()]: the cursor is dropped
    under the lock. *)
Definition destroy (self : t) : M unit * t :=
  (ensure_gil (mret tt), {| begin_ := end_ self; end_ := end_ self |}).

(** [n] successive calls of [next()]: what each returned, with the
    interpreter events it caused, and the adapter afterwards. *)
Fixpoint pull (n : nat) (self : t) : list (M feature_ptr) * t :=
  match n with
  | O => ([], self)
  | S n' =>
      let '(r, self') := next self in
      let '(rs, self'') := pull n' self' in
      (r :: rs, self'')
  end.

End python_featureset.

(** [featureset_ptr]: [None] is the null pointer, the empty featureset. *)
Definition featureset_ptr : Type := option python_featureset.t.

(** ** [python_datasource] *)

Record layer_descriptor : Type := Layer_descriptor {
  descriptor_name : string;
  descriptor_encoding : string
}.

(** [ds_to_params]: the parameters handed to the base class. *)
Definition ds_to_params (ds : pyobj) : list (string * string) :=
  [("type", "python")].

Module python_datasource.

(** Modelled from the spec: the class is declared in
    [python_datasource.hpp].  It holds the parameters given to the base
    class, the fixed descriptor and the handle to the Python object. *)
Record t : Type := Make {
  params_ : list (string * string);
  desc_ : layer_descriptor;
  datasource_ : pyobj
}.

Definition name : string := "python".

Definition python_datasource (ds : pyobj) : t :=
  {| params_ := ds_to_params ds;
     desc_ := {| descriptor_name := name; descriptor_encoding := "utf-8" |};
     datasource_ := ds |}.

Definition get_descriptor (self : t) : layer_descriptor := desc_ self.

Section methods.

(** What calling the Python callable number [id] on [args] does. *)
Variable py_call : nat -> list pyobj -> pyresult.
(** The box [box2d<double> box;] declares, and mapnik's test for two
    boxes to intersect. *)
Variable default_box : box2d.
Variable intersects : box2d -> box2d -> bool.

(** [f(args)] for a Python object [f]. *)
Definition call (f : pyobj) (args : list pyobj) : M pyobj :=
  _ ← emit (Call f args);
  match f with
  | PyCallable id =>
      match py_call id args with
      | Returns v => mret v
      | Raises e => throw_error_already_set e
      end
  | _ => throw_error_already_set (type_error "object is not callable")
  end.

Definition get_param (self : t) (key : string) : M (option pyobj) :=
  v ← attr (datasource_ self) key;
  if is_none v then mret None else mret (Some v).

Definition has_param (self : t) (key : string) : M bool :=
  p ← get_param self key;
  mret (negb (bool_decide (p = None))).

Definition type (self : t) : M datasource_t :=
  rethrow_as_datasource_exception
    (ensure_gil
       (p ← get_param self "data_type";
        data_type ← value p;
        data_type_integer ← extract_long data_type;
        mret (datasource_t_of_long data_type_integer))).

Definition envelope (self : t) : M box2d :=
  let box := default_box in
  rethrow_as_datasource_exception
    (ensure_gil
       (present ← has_param self "envelope";
        if negb present
        then throw_datasource_exception "Python: could not access envelope property"
        else
          p ← get_param self "envelope";
          py_envelope ← value p;
          if is_none py_envelope
          then throw_datasource_exception "Python: envelope property is None"
          else
            ex ← attr py_envelope "minx";
            if negb (extract_double_check ex)
            then throw_datasource_exception "Python: could not convert envelope.minx"
            else
            v ← extract_double ex;
            let box := set_minx box v in
            ex1 ← attr py_envelope "miny";
            if negb (extract_double_check ex1)
            then throw_datasource_exception "Python: could not convert envelope.miny"
            else
            v1 ← extract_double ex1;
            let box := set_miny box v1 in
            ex2 ← attr py_envelope "maxx";
            if negb (extract_double_check ex2)
            then throw_datasource_exception "Python: could not convert envelope.maxx"
            else
            v2 ← extract_double ex2;
            let box := set_maxx box v2 in
            ex3 ← attr py_envelope "maxy";
            if negb (extract_double_check ex3)
            then throw_datasource_exception "Python: could not convert envelope.maxy"
            else
            v3 ← extract_double ex3;
            let box := set_maxy box v3 in
            mret box)).

Definition get_geometry_type (self : t) : M (option datasource_geometry_t) :=
  rethrow_as_datasource_exception
    (ensure_gil
       (present ← has_param self "geometry_type";
        if negb present then mret None
        else
          p ← get_param self "geometry_type";
          py_geometry_type ← value p;
          if is_none py_geometry_type then mret None
          else
            geom_type_integer ← extract_long py_geometry_type;
            mret (Some (datasource_geometry_t_of_long geom_type_integer)))).

Definition features (self : t) (q : query) : M featureset_ptr :=
  rethrow_as_datasource_exception
    (extent ← envelope self;
     if intersects extent (get_bbox q)
     then
       ensure_gil
         (p ← get_param self "features";
          f ← value p;
          features ← call f [PyQuery q];
          if is_none features then mret None
          else
            fs ← python_featureset.python_featureset features;
            mret (Some fs))
     else mret None).

Definition features_at_point (self : t) (pt : coord2d) (tol : float)
  : M featureset_ptr :=
  rethrow_as_datasource_exception
    (ensure_gil
       (p ← get_param self "features_at_point";
        f ← value p;
        features ← call f [PyCoord pt];
        if is_none features then mret None
        else
          fs ← python_featureset.python_featureset features;
          mret (Some fs))).

End methods.

End python_datasource.

(** The four bounds in the order [envelope()] reads them. *)
Definition envelope_fields : list string := ["minx"; "miny"; "maxx"; "maxy"].

(** ** Sample datasources

    Concrete Python objects and a concrete host, on which the adapter is
    run below. *)

Definition sample_envelope : pyobj :=
  PyInstance {[ "minx" := PyFloat (-10.0)%float; "miny" := PyFloat (-5.0)%float;
                "maxx" := PyFloat 10.0%float; "maxy" := PyFloat 5.0%float ]}.

Definition sample_features : pyobj :=
  PyIterable [PyFeature (Feature 1); PyFeature (Feature 2); PyFeature (Feature 3)] None.

Definition sample_datasource : pyobj :=
  PyInstance {[ "data_type" := PyInt 0; "envelope" := sample_envelope;
                "geometry_type" := PyInt 3;
                "features" := PyCallable 0; "features_at_point" := PyCallable 1 ]}.

(** Callable 0 is the sample's [features], callable 1 its
    [features_at_point]; every other callable returns [None]. *)
Definition sample_py_call (id : nat) (args : list pyobj) : pyresult :=
  match id with
  | 0%nat | 1%nat => Returns sample_features
  | _ => Returns PyNone
  end.

Definition sample_default_box : box2d := Box2d 0 0 (-1) (-1).

(** A query box away from the sample envelope, and one inside it. *)
Definition far_query : query := Query (Box2d 20 20 30 30).
Definition near_query : query := Query (Box2d 0 0 1 1).

Definition sample_point : coord2d := Coord2d 1 2.

(** Datasources that lack an attribute, or have it set to [None]. *)
Definition without_envelope : pyobj := PyInstance {[ "data_type" := PyInt 0 ]}.
Definition null_envelope : pyobj :=
  PyInstance {[ "data_type" := PyInt 0; "envelope" := PyNone ]}.
Definition without_geometry_type : pyobj :=
  PyInstance {[ "data_type" := PyInt 0; "envelope" := sample_envelope ]}.
Definition null_data_type : pyobj :=
  PyInstance {[ "data_type" := PyNone; "envelope" := sample_envelope ]}.

Definition inverted_envelope : pyobj :=
  PyInstance {[ "minx" := PyFloat 10.0%float; "miny" := PyFloat 5.0%float;
                "maxx" := PyFloat (-10.0)%float; "maxy" := PyInt (-5) ]}.
Definition inverted_datasource : pyobj :=
  PyInstance {[ "envelope" := inverted_envelope ]}.

(** ** States of a featureset over a list of features *)

(** The adapter standing on feature [f] with [rest] still to come, and
    the adapter past the last item. *)
Definition standing_on (f : feature) (rest : list feature) : python_featureset.t :=
  {| python_featureset.begin_ :=
       {| stl_input_iterator.it_ :=
            Some {| pending := map PyFeature rest; finish := None |};
          stl_input_iterator.ob_ := Some (PyFeature f) |};
     python_featureset.end_ := stl_input_iterator.default |}.

Definition at_end : python_featureset.t :=
  {| python_featureset.begin_ :=
       {| stl_input_iterator.it_ := Some {| pending := []; finish := None |};
          stl_input_iterator.ob_ := None |};
     python_featureset.end_ := stl_input_iterator.default |}.

(** The adapter right after construction. *)
Definition constructed (fl : list feature) : python_featureset.t :=
  match fl with
  | [] => at_end
  | f :: rest => standing_on f rest
  end.

(** ** The lock discipline of a trace *)

(** The lock discipline this code follows, as a check of a trace: the
    number of locks the adapter holds after the events of [t], starting
    with [d] held.  The check fails ([None]) when the lock is released
    without being held, when an attribute is read, a callable called or an
    iterator stepped with no lock held, and when the handler's work (the
    fetch and the rendering of a pending error) happens while the adapter
    holds a lock: in this code the handler runs once the guarded block is
    left, so its work is done without a lock of the adapter. *)
Fixpoint locks_after (d : nat) (t : list event) : option nat :=
  match t with
  | [] => Some d
  | GilEnsure :: t' => locks_after (S d) t'
  | GilRelease :: t' =>
      match d with
      | O => None
      | S d' => locks_after d' t'
      end
  | (GetAttr _ _ | Call _ _ | GetIter _ | IterNext) :: t' =>
      match d with
      | O => None
      | S _ => locks_after d t'
      end
  | (ErrFetch | FormatException) :: t' =>
      match d with
      | O => locks_after O t'
      | S _ => None
      end
  end.

(** A trace of code that runs with the lock held, and of a whole method. *)
Definition inside_lock (t : list event) : Prop :=
  forall d, locks_after (S d) t = Some (S d).

Definition lock_disciplined (t : list event) : Prop :=
  locks_after 0 t = Some 0%nat.

(** ** More sample datasources *)

Definition float_data_type : pyobj :=
  PyInstance {[ "data_type" := PyFloat 1.0%float; "geometry_type" := PyStr "point" ]}.

Definition null_geometry_type : pyobj :=
  PyInstance {[ "data_type" := PyInt 0; "geometry_type" := PyNone ]}.


(** An envelope without maxx, and one whose maxx is too large a number. *)
Definition envelope_without_maxx : pyobj :=
  PyInstance {[ "minx" := PyFloat (-10.0)%float; "miny" := PyFloat (-5.0)%float;
                "maxy" := PyFloat 5.0%float ]}.
Definition huge_maxx_envelope : pyobj :=
  PyInstance {[ "minx" := PyFloat (-10.0)%float; "miny" := PyFloat (-5.0)%float;
                "maxx" := PyInt (10 ^ 400); "maxy" := PyFloat 5.0%float ]}.

(** The sample datasource with other [features] and [features_at_point]
    attributes. *)
Definition sample_with (features features_at_point : pyobj) : pyobj :=
  PyInstance {[ "data_type" := PyInt 0; "envelope" := sample_envelope;
                "features" := features; "features_at_point" := features_at_point ]}.

Definition sample_without_callables : pyobj :=
  PyInstance {[ "data_type" := PyInt 0; "envelope" := sample_envelope ]}.

(** Callable 0 returns [None], callable 1 raises, callable 2 returns a
    number, callable 3 returns the sample features. *)
Definition sample_error : pyexc :=
  {| exc_type := "ValueError"; exc_value := Some "no such layer";
     exc_traceback := ""; exc_format_error := None |}.

Definition other_py_call (id : nat) (args : list pyobj) : pyresult :=
  match id with
  | 0%nat => Returns PyNone
  | 1%nat => Raises sample_error
  | 2%nat => Returns (PyInt 7)
  | _ => Returns sample_features
  end.

(** ** More states of a featureset *)

(** The adapter standing on the Python value [v], with the iterator [it]
    behind it. *)
Definition standing_on_value (v : pyobj) (it : py_iterator) : python_featureset.t :=
  {| python_featureset.begin_ :=
       {| stl_input_iterator.it_ := Some it;
          stl_input_iterator.ob_ := Some v |};
     python_featureset.end_ := stl_input_iterator.default |}.

(** What the constructor and [next()] keep true of an adapter: the end
    cursor stands on nothing, and a cursor that stands on an item has an
    iterator behind it. *)
Definition well_formed (fs : python_featureset.t) : Prop :=
  stl_input_iterator.ob_ (python_featureset.end_ fs) = None
  /\ (stl_input_iterator.ob_ (python_featureset.begin_ fs) <> None ->
      stl_input_iterator.it_ (python_featureset.begin_ fs) <> None).

(** ** Reading the envelope *)

(** The bounds before position [k] are there and convert. *)
Definition bounds_before_convert (e : pyobj) (k : nat) : Prop :=
  forall (j : nat) (f : string),
    (j < k)%nat -> envelope_fields !! j = Some f ->
    exists w d, attr_of e f = Some w /\ extract_double w = (Ok d, []).

(** ** How a block and a method may end *)

(** A block under the lock ends in a value, a Python error, a
    [datasource_exception] that says something, or [bad_optional_access].
    A method ends the same way, but a Python error leaves it only from
    inside its handler: the last events are then the handler's. *)
Definition orderly {A} (m : M A) : Prop :=
  match fst m with
  | Ok _ | PyErr _ | BadOptional => True
  | DsErr msg => msg <> ""
  | Undefined => False
  end.

Definition settled {A} (m : M A) : Prop :=
  match fst m with
  | Ok _ | BadOptional => True
  | DsErr msg => msg <> ""
  | PyErr _ => exists t, snd m = t ++ [ErrFetch; FormatException]
  | Undefined => False
  end.

(** The adapter the constructor builds on an iterable that yields the
    features [fl], at least one, and then raises [e]. *)
Definition constructed_raising (e : pyexc) (fl : list feature) : python_featureset.t :=
  match fl with
  | [] => at_end
  | f :: rest =>
      standing_on_value (PyFeature f)
        {| pending := map PyFeature rest; finish := Some e |}
  end.

(** * Properties *)

Import python_datasource.

Arguments attr_of : simpl never.
Arguments attr : simpl never.
Arguments rethrow_as_datasource_exception : simpl never.

(** ** Attribute access *)

Lemma attr_present o key v :
  attr_of o key = Some v -> attr o key = (Ok v, [GetAttr o key]).
Proof. intros H. unfold attr. rewrite H. reflexivity. Qed.

Lemma attr_absent o key :
  attr_of o key = None ->
  attr o key = (PyErr (attribute_error key), [GetAttr o key]).
Proof. intros H. unfold attr. rewrite H. reflexivity. Qed.

(** Only an instance has attributes, so a value with one is not [None]. *)
Lemma attr_of_not_none o key v : attr_of o key = Some v -> is_none o = false.
Proof. destruct o; try reflexivity. unfold attr_of. discriminate. Qed.

Lemma get_param_absent self key :
  attr_of (datasource_ self) key = None ->
  get_param self key
  = (PyErr (attribute_error key), [GetAttr (datasource_ self) key]).
Proof. intros H. unfold get_param. rewrite (attr_absent _ _ H). reflexivity. Qed.

Lemma get_param_null self key :
  attr_of (datasource_ self) key = Some PyNone ->
  get_param self key = (Ok None, [GetAttr (datasource_ self) key]).
Proof. intros H. unfold get_param. rewrite (attr_present _ _ _ H). reflexivity. Qed.

Lemma get_param_value self key v :
  attr_of (datasource_ self) key = Some v -> is_none v = false ->
  get_param self key = (Ok (Some v), [GetAttr (datasource_ self) key]).
Proof.
  intros H Hv. unfold get_param. rewrite (attr_present _ _ _ H). cbn.
  rewrite Hv. reflexivity.
Qed.

Lemma has_param_absent self key :
  attr_of (datasource_ self) key = None ->
  has_param self key
  = (PyErr (attribute_error key), [GetAttr (datasource_ self) key]).
Proof. intros H. unfold has_param. rewrite (get_param_absent _ _ H). reflexivity. Qed.

Lemma has_param_null self key :
  attr_of (datasource_ self) key = Some PyNone ->
  has_param self key = (Ok false, [GetAttr (datasource_ self) key]).
Proof. intros H. unfold has_param. rewrite (get_param_null _ _ H). reflexivity. Qed.

Lemma has_param_value self key v :
  attr_of (datasource_ self) key = Some v -> is_none v = false ->
  has_param self key = (Ok true, [GetAttr (datasource_ self) key]).
Proof.
  intros H Hv. unfold has_param. rewrite (get_param_value _ _ _ H Hv). reflexivity.
Qed.

(** ** Conversions *)

(** A value that passes [check()] converts, unless it is an integer too
    large for a double. *)
Lemma extract_double_cases v :
  extract_double_check v = true ->
  (exists d, extract_double v = (Ok d, []))
  \/ extract_double v = (PyErr float_overflow, []).
Proof.
  destruct v; try discriminate; intros _; cbn.
  - destruct (long_as_double z); [left; eexists; reflexivity | right; reflexivity].
  - left; eexists; reflexivity.
Qed.

Lemma extract_double_ok_check v d :
  extract_double v = (Ok d, []) -> extract_double_check v = true.
Proof. destruct v; try discriminate; reflexivity. Qed.

(** The text of an exception is never empty: it ends in a newline. *)
Lemma append_empty s1 s2 : s1 +:+ s2 = "" -> s2 = "".
Proof. destruct s1; cbn; [trivial | discriminate]. Qed.

Lemma exception_text_nonempty e : exception_text e <> "".
Proof.
  unfold exception_text, format_exception. cbn.
  intros H. do 3 apply append_empty in H. discriminate.
Qed.

Lemma extractException_text e :
  exc_format_error e = None ->
  fst (extractException e) = Ok (exception_text e).
Proof.
  intros H. unfold extractException, exception_text, extract_string. cbn.
  rewrite H. reflexivity.
Qed.

(** A Python error that reaches the handler and can be rendered leaves
    as a [datasource_exception] with the error's text; rendering it
    reads no attribute and calls nothing of the datasource. *)
Lemma rethrow_python_error {A} (e : pyexc) (t : list event) :
  exc_format_error e = None ->
  exists t',
    rethrow_as_datasource_exception ((PyErr e, t) : M A)
    = (DsErr (exception_text e), t ++ t')
    /\ attr_reads t' = [] /\ calls t' = [].
Proof.
  intros H.
  unfold rethrow_as_datasource_exception, catch_error_already_set,
    extractException, exception_text, extract_string. cbn.
  rewrite H. cbn. eexists; (split; [reflexivity | split; reflexivity]).
Qed.

Lemma rethrow_python_error_outcome {A} (e : pyexc) (t : list event) :
  exc_format_error e = None ->
  fst (rethrow_as_datasource_exception ((PyErr e, t) : M A))
  = DsErr (exception_text e).
Proof.
  intros H.
  destruct (rethrow_python_error (A := A) e t H) as (t' & -> & _). reflexivity.
Qed.

(** When rendering the error fails, the second error leaves the handler
    as [error_already_set]. *)
Lemma rethrow_unrenderable_error {A} (e : pyexc) (t : list event) err :
  exc_format_error e = Some err ->
  rethrow_as_datasource_exception ((PyErr e, t) : M A)
  = (PyErr (format_error err), t ++ [ErrFetch; FormatException]).
Proof.
  intros H.
  unfold rethrow_as_datasource_exception, catch_error_already_set,
    extractException, extract_string. cbn.
  rewrite H. reflexivity.
Qed.

(** Either way the handler adds its two events, and nothing else. *)
Lemma rethrow_python_error_trace {A} (e : pyexc) (t : list event) :
  snd (rethrow_as_datasource_exception ((PyErr e, t) : M A))
  = t ++ [ErrFetch; FormatException].
Proof.
  unfold rethrow_as_datasource_exception, catch_error_already_set,
    extractException, extract_string. cbn.
  destruct (exc_format_error e); reflexivity.
Qed.

(** ** [envelope()] *)

(** One bound of the envelope: the attribute is missing, fails the
    check, overflows, or converts; [fails] closes the three ways out. *)
Ltac bound_step e field fails :=
  let v := fresh "v" in
  let Hc := fresh "Hc" in
  let d := fresh "d" in
  let Hd := fresh "Hd" in
  destruct (attr_of e field) as [v|] eqn:?; cbn; [|fails];
  destruct (extract_double_check v) eqn:Hc; cbn; [|fails];
  destruct (extract_double_cases v Hc) as [[d Hd]|Hd]; rewrite Hd; cbn; [|fails].

(** What every run of [envelope()] has in common: it calls nothing; when
    it returns it has read "envelope" twice and the four bounds once
    each; and it ends in a box or in a [datasource_exception] other than
    the one for a [None] envelope. *)
Lemma envelope_shape box self :
  calls (snd (envelope box self)) = []
  /\ (forall b, fst (envelope box self) = Ok b ->
        attr_reads (snd (envelope box self))
        = "envelope" :: "envelope" :: envelope_fields)
  /\ ((exists b, fst (envelope box self) = Ok b)
      \/ (exists msg, fst (envelope box self) = DsErr msg
            /\ msg <> "Python: envelope property is None")).
Proof.
  unfold envelope, rethrow_as_datasource_exception, has_param, get_param, attr.
  cbn.
  destruct (attr_of (datasource_ self) "envelope") as [e|] eqn:He; cbn.
  2: { split; [reflexivity | split; [discriminate |]].
       right; eexists; split; [reflexivity | discriminate]. }
  destruct (is_none e) eqn:Hn; cbn.
  { split; [reflexivity | split; [discriminate |]].
    right; eexists; split; [reflexivity | discriminate]. }
  rewrite Hn; cbn.
  bound_step e "minx"
    ltac:(split; [reflexivity | split; [discriminate |]];
          right; eexists; split; [reflexivity | discriminate]).
  bound_step e "miny"
    ltac:(split; [reflexivity | split; [discriminate |]];
          right; eexists; split; [reflexivity | discriminate]).
  bound_step e "maxx"
    ltac:(split; [reflexivity | split; [discriminate |]];
          right; eexists; split; [reflexivity | discriminate]).
  bound_step e "maxy"
    ltac:(split; [reflexivity | split; [discriminate |]];
          right; eexists; split; [reflexivity | discriminate]).
  split; [reflexivity | split; [reflexivity |]]. left; eexists; reflexivity.
Qed.

(** [envelope()] on an object without the attribute, and on one whose
    attribute is [None]. *)
Lemma envelope_absent box self :
  attr_of (datasource_ self) "envelope" = None ->
  envelope box self
  = (DsErr (exception_text (attribute_error "envelope")),
     [GilEnsure; GetAttr (datasource_ self) "envelope"; GilRelease;
      ErrFetch; FormatException]).
Proof.
  intros H. unfold envelope. rewrite (has_param_absent _ _ H). reflexivity.
Qed.

Lemma envelope_null box self :
  attr_of (datasource_ self) "envelope" = Some PyNone ->
  envelope box self
  = (DsErr "Python: could not access envelope property",
     [GilEnsure; GetAttr (datasource_ self) "envelope"; GilRelease]).
Proof.
  intros H. unfold envelope. rewrite (has_param_null _ _ H). reflexivity.
Qed.

(** A bound that is there and converts: the step the proofs below take
    once per bound read. *)
Ltac read_bound Hattr Hconv :=
  rewrite (attr_present _ _ _ Hattr); cbn;
  rewrite (extract_double_ok_check _ _ Hconv); cbn;
  rewrite Hconv; cbn.

Ltac enter_envelope He Hfield :=
  unfold envelope;
  rewrite (has_param_value _ _ _ He (attr_of_not_none _ _ _ Hfield)); cbn;
  rewrite (get_param_value _ _ _ He (attr_of_not_none _ _ _ Hfield)); cbn;
  rewrite (attr_of_not_none _ _ _ Hfield); cbn.





(** Bounds the wrong way round (and an integer among them) come back as
    they are. *)
Example envelope_inverted :
  fst (envelope sample_default_box (python_datasource inverted_datasource))
  = Ok (Box2d 10.0 5.0 (-10.0) (-5.0)).
Proof. reflexivity. Qed.

(** An integer too large for a double passes [check()] and then fails to
    convert: the error is the interpreter's, not one that names a field. *)
Example envelope_integer_overflow :
  fst (envelope sample_default_box
         (python_datasource
            (PyInstance {[ "envelope" := PyInstance {[ "minx" := PyInt (10 ^ 400) ]} ]})))
  = DsErr (exception_text float_overflow).
Proof. reflexivity. Qed.




(** A non-numeric minx is reported as minx, and nothing else of the
    envelope is read. *)
Example envelope_bad_minx box self e v :
  attr_of (datasource_ self) "envelope" = Some e ->
  attr_of e "minx" = Some v -> extract_double_check v = false ->
  fst (envelope box self) = DsErr "Python: could not convert envelope.minx"
  /\ attr_reads (snd (envelope box self)) = ["envelope"; "envelope"; "minx"].
Proof.
  intros He Hv Hc.
  enter_envelope He Hv. rewrite (attr_present _ _ _ Hv); cbn. rewrite Hc.
  split; reflexivity.
Qed.

(** C6: when the "envelope" attribute is missing, and likewise when it is
    [None], [envelope()] throws a [datasource_exception], and the only
    attribute read is "envelope" itself: none of the four bounds. *)
Theorem C6_envelope_absent_or_null_fails_without_field_reads
    (box : box2d) (self : t) :
  attr_of (datasource_ self) "envelope" = None
  \/ attr_of (datasource_ self) "envelope" = Some PyNone ->
  (exists msg, fst (envelope box self) = DsErr msg)
  /\ attr_reads (snd (envelope box self)) = ["envelope"]
  /\ forall field, field ∈ envelope_fields ->
       field ∉ attr_reads (snd (envelope box self)).
Proof.
  intros [H|H].
  - rewrite (envelope_absent _ _ H); cbn.
    split; [eexists; reflexivity | split; [reflexivity |]].
    intros field Hin Hread. apply list_elem_of_singleton in Hread as ->.
    apply list_elem_of_In in Hin. cbn in Hin. intuition discriminate.
  - rewrite (envelope_null _ _ H); cbn.
    split; [eexists; reflexivity | split; [reflexivity |]].
    intros field Hin Hread. apply list_elem_of_singleton in Hread as ->.
    apply list_elem_of_In in Hin. cbn in Hin. intuition discriminate.
Qed.

Lemma C6_envelope_absent_witness :
  (exists msg,
      fst (envelope sample_default_box (python_datasource without_envelope))
      = DsErr msg)
  /\ attr_reads (snd (envelope sample_default_box (python_datasource without_envelope)))
     = ["envelope"]
  /\ forall field, field ∈ envelope_fields ->
       field ∉ attr_reads (snd (envelope sample_default_box
                                  (python_datasource without_envelope))).
Proof.
  apply (C6_envelope_absent_or_null_fails_without_field_reads
           sample_default_box (python_datasource without_envelope)).
  left. reflexivity.
Defined.

Example envelope_null_sample :
  envelope sample_default_box (python_datasource null_envelope)
  = (DsErr "Python: could not access envelope property",
     [GilEnsure; GetAttr null_envelope "envelope"; GilRelease]).
Proof. reflexivity. Qed.

(** C9: [get_param] gives [boost::none] exactly when the attribute is
    there and is [None]; a missing attribute makes the lookup raise, and
    the [AttributeError] leaves [get_param] and [has_param] as it is.
    Hence in [envelope()] the exception "Python: envelope property is None"
    is never thrown: a [None] envelope is reported as "could not access
    envelope property", a missing one with the text of the
    [AttributeError]. *)
Theorem C9_get_param_none_only_for_null_attribute
    (box : box2d) (self : t) (key : string) :
  (fst (get_param self key) = Ok None
   <-> attr_of (datasource_ self) key = Some PyNone)
  /\ (attr_of (datasource_ self) key = None ->
      fst (get_param self key) = PyErr (attribute_error key)
      /\ fst (has_param self key) = PyErr (attribute_error key))
  /\ fst (envelope box self) <> DsErr "Python: envelope property is None"
  /\ (attr_of (datasource_ self) "envelope" = Some PyNone ->
      fst (envelope box self) = DsErr "Python: could not access envelope property")
  /\ (attr_of (datasource_ self) "envelope" = None ->
      fst (envelope box self) = DsErr (exception_text (attribute_error "envelope"))).
Proof.
  split; [|split; [|split; [|split]]].
  - destruct (attr_of (datasource_ self) key) as [v|] eqn:H.
    + destruct (is_none v) eqn:Hv.
      * destruct v; try discriminate. rewrite (get_param_null _ _ H).
        split; reflexivity.
      * rewrite (get_param_value _ _ _ H Hv). cbn.
        split; [discriminate | intros [= ->]; discriminate].
    + rewrite (get_param_absent _ _ H). cbn. split; discriminate.
  - intros H. rewrite (get_param_absent _ _ H), (has_param_absent _ _ H).
    split; reflexivity.
  - destruct (envelope_shape box self) as (_ & _ & [[b Hb] | (msg & Hmsg & Hne)]).
    + rewrite Hb. discriminate.
    + rewrite Hmsg. intros [= ->]. apply Hne. reflexivity.
  - intros H. rewrite (envelope_null _ _ H). reflexivity.
  - intros H. rewrite (envelope_absent _ _ H). reflexivity.
Qed.

Lemma C9_get_param_witness :
  (fst (get_param (python_datasource without_envelope) "envelope")
   = PyErr (attribute_error "envelope")
   /\ fst (has_param (python_datasource without_envelope) "envelope")
      = PyErr (attribute_error "envelope"))
  /\ fst (envelope sample_default_box (python_datasource null_envelope))
     = DsErr "Python: could not access envelope property"
  /\ fst (envelope sample_default_box (python_datasource without_envelope))
     = DsErr (exception_text (attribute_error "envelope")).
Proof.
  split; [|split].
  - apply (C9_get_param_none_only_for_null_attribute sample_default_box
             (python_datasource without_envelope) "envelope").
    reflexivity.
  - apply (C9_get_param_none_only_for_null_attribute sample_default_box
             (python_datasource null_envelope) "envelope").
    reflexivity.
  - apply (C9_get_param_none_only_for_null_attribute sample_default_box
             (python_datasource without_envelope) "envelope").
    reflexivity.
Defined.

(** ** [type()] and [get_geometry_type()] *)

Lemma type_absent self :
  attr_of (datasource_ self) "data_type" = None ->
  fst (type self) = DsErr (exception_text (attribute_error "data_type")).
Proof. intros H. unfold type. rewrite (get_param_absent _ _ H). reflexivity. Qed.

(** X8: without a "data_type" attribute, [type()] throws a
    [datasource_exception] whose message is not empty. *)
Lemma type_absent_message_nonempty self :
  attr_of (datasource_ self) "data_type" = None ->
  exists msg, fst (type self) = DsErr msg /\ msg <> "".
Proof.
  intros H. rewrite (type_absent _ H). eexists. split; [reflexivity|].
  apply exception_text_nonempty.
Qed.

(** A value that is not [None] and does not convert to a [long] is
    reported with the text of the interpreter's error. *)
Lemma type_not_convertible self v e :
  attr_of (datasource_ self) "data_type" = Some v -> is_none v = false ->
  extract_long v = (PyErr e, []) ->
  exc_format_error e = None ->
  fst (type self) = DsErr (exception_text e).
Proof.
  intros H Hv He Hf. unfold type. rewrite (get_param_value _ _ _ H Hv). cbn.
  rewrite He. cbn. apply rethrow_python_error_outcome, Hf.
Qed.

(** X4: a "data_type" that is a Python integer within the range of a C
    [long] is returned as the classification the cast gives: the integer
    modulo 256, which is the integer itself from 0 to 255. *)
Lemma type_integer self z :
  attr_of (datasource_ self) "data_type" = Some (PyInt z) ->
  LONG_MIN <= z <= LONG_MAX ->
  fst (type self) = Ok (Datasource_t (z mod 256))
  /\ (0 <= z < 256 -> fst (type self) = Ok (Datasource_t z)).
Proof.
  intros H Hz.
  assert (Hm : fst (type self) = Ok (Datasource_t (z mod 256))).
  { unfold type. rewrite (get_param_value _ _ _ H eq_refl). cbn.
    destruct (Z.leb_spec LONG_MIN z); [|lia].
    destruct (Z.leb_spec z LONG_MAX); [|lia]. reflexivity. }
  split; [exact Hm|].
  intros Hsmall. rewrite Hm, Z.mod_small by lia. reflexivity.
Qed.

(** C3: on the datasource whose "data_type" is [None], [type()] does not
    end in a [datasource_exception]: [get_param] gives [boost::none],
    [value()] throws [boost::bad_optional_access], and the handler, which
    catches [error_already_set] only, lets it through. *)
Theorem C3_type_null_data_type_escapes_as_bad_optional_access :
  type (python_datasource null_data_type)
  = (BadOptional, [GilEnsure; GetAttr null_data_type "data_type"; GilRelease]).
Proof. reflexivity. Qed.

Lemma get_geometry_type_absent self :
  attr_of (datasource_ self) "geometry_type" = None ->
  fst (get_geometry_type self)
  = DsErr (exception_text (attribute_error "geometry_type")).
Proof.
  intros H. unfold get_geometry_type. rewrite (has_param_absent _ _ H).
  reflexivity.
Qed.

(** X9: a "geometry_type" that is there and is [None] gives the empty
    hint. *)
Lemma get_geometry_type_null self :
  attr_of (datasource_ self) "geometry_type" = Some PyNone ->
  fst (get_geometry_type self) = Ok None.
Proof.
  intros H. unfold get_geometry_type. rewrite (has_param_null _ _ H).
  reflexivity.
Qed.

(** X10: a "geometry_type" that is a Python integer within the range of
    a C [long] gives the hint the cast gives: the integer modulo 256,
    which is the integer itself from 0 to 255. *)
Lemma get_geometry_type_integer self z :
  attr_of (datasource_ self) "geometry_type" = Some (PyInt z) ->
  LONG_MIN <= z <= LONG_MAX ->
  fst (get_geometry_type self) = Ok (Some (Datasource_geometry_t (z mod 256)))
  /\ (0 <= z < 256 ->
      fst (get_geometry_type self) = Ok (Some (Datasource_geometry_t z))).
Proof.
  intros H Hz.
  assert (Hm : fst (get_geometry_type self)
               = Ok (Some (Datasource_geometry_t (z mod 256)))).
  { unfold get_geometry_type.
    rewrite (has_param_value _ _ _ H eq_refl). cbn.
    rewrite (get_param_value _ _ _ H eq_refl). cbn.
    destruct (Z.leb_spec LONG_MIN z); [|lia].
    destruct (Z.leb_spec z LONG_MAX); [|lia]. reflexivity. }
  split; [exact Hm|].
  intros Hsmall. rewrite Hm, Z.mod_small by lia. reflexivity.
Qed.

Lemma get_geometry_type_not_convertible self v e :
  attr_of (datasource_ self) "geometry_type" = Some v -> is_none v = false ->
  extract_long v = (PyErr e, []) ->
  exc_format_error e = None ->
  fst (get_geometry_type self) = DsErr (exception_text e).
Proof.
  intros H Hv He Hf. unfold get_geometry_type.
  rewrite (has_param_value _ _ _ H Hv). cbn.
  rewrite (get_param_value _ _ _ H Hv). cbn. rewrite Hv, He. cbn.
  apply rethrow_python_error_outcome, Hf.
Qed.

(** C1: on a datasource without a "geometry_type" attribute,
    [get_geometry_type()] does not return the empty hint: the lookup in
    [has_param] raises [AttributeError], and the call ends in a
    [datasource_exception] with that error's text. *)
Theorem C1_get_geometry_type_absent_attribute_throws :
  attr_of without_geometry_type "geometry_type" = None
  /\ get_geometry_type (python_datasource without_geometry_type)
     = (DsErr (exception_text (attribute_error "geometry_type")),
        [GilEnsure; GetAttr without_geometry_type "geometry_type"; GilRelease;
         ErrFetch; FormatException]).
Proof. split; reflexivity. Qed.

(** ** [features()] *)

(** Code that follows other code in a block only adds to its trace, and
    so does the handler. *)
Lemma bind_trace_prefix {A B} (m : M A) (f : A -> M B) :
  exists t', snd (m ≫= f) = snd m ++ t'.
Proof.
  destruct m as [[a|e|msg| |] t]; cbn;
    try (exists []; symmetry; apply app_nil_r).
  destruct (f a) as [o t']. exists t'. reflexivity.
Qed.

Lemma rethrow_trace_prefix {A} (m : M A) :
  exists t', snd (rethrow_as_datasource_exception m) = snd m ++ t'.
Proof.
  destruct m as [[a|e|msg| |] t];
    try (exists []; symmetry; apply app_nil_r).
  exists [ErrFetch; FormatException]. apply rethrow_python_error_trace.
Qed.

(** A [datasource_exception] passes through the handler. *)
Lemma rethrow_datasource_exception {A} (msg : string) (t : list event) :
  rethrow_as_datasource_exception ((DsErr msg, t) : M A) = (DsErr msg, t).
Proof. reflexivity. Qed.

(** C10: [features(query)] runs [envelope()] before anything else, so
    its trace begins with the whole trace of [envelope()]; a failure of
    [envelope()] is always a [datasource_exception], and [features(query)]
    then fails with the same exception, for every query, having done
    nothing more. *)
Theorem C10_features_evaluates_envelope_first
    (py_call : nat -> list pyobj -> pyresult) (box : box2d)
    (intersects : box2d -> box2d -> bool) (self : t) (q : query) :
  (exists t', snd (features py_call box intersects self q)
              = snd (envelope box self) ++ t')
  /\ ((forall b, fst (envelope box self) <> Ok b) ->
      exists msg, fst (envelope box self) = DsErr msg)
  /\ (forall msg, fst (envelope box self) = DsErr msg ->
      features py_call box intersects self q
      = (DsErr msg, snd (envelope box self))).
Proof.
  split; [|split].
  - unfold features.
    match goal with
    | |- context [snd (rethrow_as_datasource_exception (?m ≫= ?k))] =>
        destruct (rethrow_trace_prefix (m ≫= k)) as (t1 & Ht1);
        destruct (bind_trace_prefix m k) as (t2 & Ht2)
    end.
    exists (t2 ++ t1). etransitivity; [exact Ht1|].
    rewrite app_assoc. f_equal. exact Ht2.
  - intros Hfail.
    destruct (envelope_shape box self) as (_ & _ & [[b Hb] | (msg & Hmsg & _)]).
    + destruct (Hfail b Hb).
    + exists msg. exact Hmsg.
  - intros msg Hmsg. unfold features.
    destruct (envelope box self) as [o t]. cbn in Hmsg. subst o. reflexivity.
Qed.

Lemma C10_features_without_envelope_witness :
  features sample_py_call sample_default_box box2d_intersects
    (python_datasource without_envelope) far_query
  = (DsErr (exception_text (attribute_error "envelope")),
     snd (envelope sample_default_box (python_datasource without_envelope))).
Proof.
  apply (C10_features_evaluates_envelope_first sample_py_call
           sample_default_box box2d_intersects
           (python_datasource without_envelope) far_query).
  reflexivity.
Defined.

(** C2, as amended: when [envelope()] returns a box that the query box
    does not intersect, [features(query)] returns the empty featureset
    and adds nothing to what [envelope()] did: no callable is called and
    the "features" attribute is not even looked up.  The attribute reads
    of [envelope()] itself are the interpreter work that remains. *)
Theorem C2_features_outside_envelope_calls_nothing
    (py_call : nat -> list pyobj -> pyresult) (box : box2d)
    (intersects : box2d -> box2d -> bool) (self : t) (q : query)
    (extent : box2d) (t : list event) :
  envelope box self = (Ok extent, t) ->
  intersects extent (get_bbox q) = false ->
  features py_call box intersects self q = (Ok None, t)
  /\ calls t = []
  /\ attr_reads t = "envelope" :: "envelope" :: envelope_fields
  /\ "features" ∉ attr_reads t.
Proof.
  intros Henv Hout.
  destruct (envelope_shape box self) as (Hcalls & Hreads & _).
  rewrite Henv in Hcalls, Hreads. cbn [fst snd] in Hcalls, Hreads.
  specialize (Hreads extent eq_refl).
  split; [|split; [exact Hcalls | split; [exact Hreads |]]].
  - unfold features, rethrow_as_datasource_exception. rewrite Henv. cbn.
    rewrite Hout. cbn. rewrite app_nil_r. reflexivity.
  - rewrite Hreads. intros Hin. apply list_elem_of_In in Hin. cbn in Hin.
    intuition discriminate.
Qed.

Lemma C2_features_far_query_witness :
  features sample_py_call sample_default_box box2d_intersects
    (python_datasource sample_datasource) far_query
  = (Ok None,
     [GilEnsure;
      GetAttr sample_datasource "envelope"; GetAttr sample_datasource "envelope";
      GetAttr sample_envelope "minx"; GetAttr sample_envelope "miny";
      GetAttr sample_envelope "maxx"; GetAttr sample_envelope "maxy";
      GilRelease]).
Proof.
  apply (C2_features_outside_envelope_calls_nothing sample_py_call
           sample_default_box box2d_intersects
           (python_datasource sample_datasource) far_query
           (Box2d (-10.0) (-5.0) 10.0 5.0)); reflexivity.
Defined.

(** C2, as stated, fails on the sample: the query box is away from the
    envelope and the featureset is empty, yet the interpreter was entered
    and six attributes were read. *)
Lemma C2_features_far_query_does_interpreter_work :
  box2d_intersects (Box2d (-10.0) (-5.0) 10.0 5.0) (get_bbox far_query) = false
  /\ fst (features sample_py_call sample_default_box box2d_intersects
            (python_datasource sample_datasource) far_query) = Ok None
  /\ snd (features sample_py_call sample_default_box box2d_intersects
            (python_datasource sample_datasource) far_query) <> []
  /\ attr_reads
       (snd (features sample_py_call sample_default_box box2d_intersects
               (python_datasource sample_datasource) far_query))
     = ["envelope"; "envelope"; "minx"; "miny"; "maxx"; "maxy"].
Proof. repeat split; try reflexivity. discriminate. Qed.

(** Inside the envelope the callable is called once, with the query. *)
Example features_near_query :
  calls (snd (features sample_py_call sample_default_box box2d_intersects
                (python_datasource sample_datasource) near_query))
  = [(PyCallable 0, [PyQuery near_query])].
Proof. reflexivity. Qed.

(** ** [features_at_point()] *)

Arguments call : simpl never.

(** A call is one event, and ends in a value or a Python error. *)
Lemma call_trace py_call f args :
  snd (call py_call f args) = [Call f args].
Proof.
  unfold call. cbn. destruct f; try reflexivity.
  destruct (py_call id args); reflexivity.
Qed.

(** Building a featureset calls nothing. *)
Lemma python_featureset_calls r :
  calls (snd (python_featureset.python_featureset r)) = [].
Proof.
  destruct r; try reflexivity.
  - unfold python_featureset.python_featureset, stl_input_iterator.from_object.
    cbn. destruct (chars_of s); reflexivity.
  - unfold python_featureset.python_featureset, stl_input_iterator.from_object.
    cbn. destruct items; [destruct fin|]; reflexivity.
Qed.

Lemma calls_app t1 t2 : calls (t1 ++ t2) = calls t1 ++ calls t2.
Proof. apply omap_app. Qed.

Lemma rethrow_calls {A} (m : M A) :
  calls (snd (rethrow_as_datasource_exception m)) = calls (snd m).
Proof.
  destruct m as [[a|e|msg| |] t]; try reflexivity.
  rewrite rethrow_python_error_trace. cbn [snd]. rewrite calls_app.
  apply app_nil_r.
Qed.

(** C7: [features_at_point(pt, tol)] calls the "features_at_point"
    attribute once, with the point as its only argument; the tolerance
    does not reach the call, nor does it change anything else.  When the
    call returns [None] the featureset is the null one, and when it
    returns anything else the result is the [python_featureset] built
    from that value. *)
Theorem C7_features_at_point_forwards_point_only
    (py_call : nat -> list pyobj -> pyresult) (self : t)
    (pt : coord2d) (tol : float) (f : pyobj) :
  attr_of (datasource_ self) "features_at_point" = Some f ->
  is_none f = false ->
  calls (snd (features_at_point py_call self pt tol)) = [(f, [PyCoord pt])]
  /\ (forall tol', features_at_point py_call self pt tol'
                   = features_at_point py_call self pt tol)
  /\ (fst (call py_call f [PyCoord pt]) = Ok PyNone ->
      fst (features_at_point py_call self pt tol) = Ok None)
  /\ (forall r fs t0,
        fst (call py_call f [PyCoord pt]) = Ok r -> is_none r = false ->
        python_featureset.python_featureset r = (Ok fs, t0) ->
        fst (features_at_point py_call self pt tol) = Ok (Some fs)).
Proof.
  intros Hf Hnone.
  pose proof (call_trace py_call f [PyCoord pt]) as Htrace.
  split; [|split; [|split]].
  - unfold features_at_point. rewrite rethrow_calls.
    rewrite (get_param_value _ _ _ Hf Hnone). cbn.
    destruct (call py_call f [PyCoord pt]) as [o tc]. cbn in Htrace. subst tc.
    destruct o as [r|e|msg| |]; try reflexivity. cbn.
    destruct (is_none r); [reflexivity|].
    pose proof (python_featureset_calls r) as Hfs.
    destruct (python_featureset.python_featureset r) as [o t0].
    cbn [snd] in Hfs.
    destruct o; cbn; rewrite ?calls_app, ?Hfs; reflexivity.
  - reflexivity.
  - intros Hcall. unfold features_at_point.
    rewrite (get_param_value _ _ _ Hf Hnone). cbn.
    destruct (call py_call f [PyCoord pt]) as [o tc]. cbn in Hcall. subst o.
    reflexivity.
  - intros r fs t0 Hcall Hr Hfs. unfold features_at_point.
    rewrite (get_param_value _ _ _ Hf Hnone). cbn.
    destruct (call py_call f [PyCoord pt]) as [o tc]. cbn in Hcall. subst o.
    cbn. rewrite Hr, Hfs. reflexivity.
Qed.

Lemma C7_features_at_point_witness :
  calls (snd (features_at_point sample_py_call
                (python_datasource sample_datasource) sample_point 0.5))
  = [(PyCallable 1, [PyCoord sample_point])].
Proof.
  apply (C7_features_at_point_forwards_point_only sample_py_call
           (python_datasource sample_datasource) sample_point 0.5%float
           (PyCallable 1)); reflexivity.
Defined.

(** ** [python_featureset] *)

Lemma python_featureset_constructed fl :
  python_featureset.python_featureset (PyIterable (map PyFeature fl) None)
  = (Ok (constructed fl),
     [GilEnsure; GetIter (PyIterable (map PyFeature fl) None); IterNext;
      GilRelease]).
Proof. destruct fl; reflexivity. Qed.

(** One call on an adapter standing on a feature yields that feature. *)
Lemma next_standing_on f rest :
  python_featureset.next (standing_on f rest)
  = ((Ok (Some f), [GilEnsure; IterNext; GilRelease]), constructed rest).
Proof. destruct rest; reflexivity. Qed.

(** At the end, [next()] yields the null pointer, causes no event and
    leaves the adapter as it is. *)
Lemma next_at_end : python_featureset.next at_end = ((Ok None, []), at_end).
Proof. reflexivity. Qed.

Lemma pull_constructed fl :
  python_featureset.pull (length fl) (constructed fl)
  = (map (fun f => (Ok (Some f), [GilEnsure; IterNext; GilRelease])) fl, at_end).
Proof.
  induction fl as [|f rest IH]; [reflexivity|].
  cbn [length python_featureset.pull constructed]. rewrite next_standing_on, IH. reflexivity.
Qed.

Lemma pull_at_end k : python_featureset.pull k at_end = (repeat (Ok None, []) k, at_end).
Proof.
  induction k as [|k IH]; [reflexivity|].
  cbn [python_featureset.pull]. rewrite next_at_end, IH. reflexivity.
Qed.

(** C8: a featureset built on an iterable of N features yields them, in
    order, in its first N calls of [next()]; it is then at its end, where
    every further call yields the null pointer, leaves the adapter
    unchanged and causes no interpreter event at all. *)
Theorem C8_featureset_yields_all_then_ends (fl : list feature) :
  exists fs t0,
    python_featureset.python_featureset (PyIterable (map PyFeature fl) None)
    = (Ok fs, t0)
    /\ map fst (fst (python_featureset.pull (length fl) fs))
       = map (fun f => Ok (Some f)) fl
    /\ python_featureset.next (snd (python_featureset.pull (length fl) fs))
       = ((Ok None, []), snd (python_featureset.pull (length fl) fs))
    /\ forall k,
         python_featureset.pull k (snd (python_featureset.pull (length fl) fs))
         = (repeat (Ok None, []) k,
            snd (python_featureset.pull (length fl) fs)).
Proof.
  exists (constructed fl). eexists.
  split; [apply python_featureset_constructed|].
  rewrite pull_constructed. cbn [fst snd].
  split; [|split].
  - rewrite map_map. reflexivity.
  - apply next_at_end.
  - apply pull_at_end.
Qed.

(** The scenario of the specification: three features, then the end. *)
Example featureset_three_features :
  exists fs t0,
    python_featureset.python_featureset sample_features = (Ok fs, t0)
    /\ map fst (fst (python_featureset.pull 5 fs))
       = [Ok (Some (Feature 1)); Ok (Some (Feature 2)); Ok (Some (Feature 3));
          Ok None; Ok None].
Proof. do 2 eexists. split; reflexivity. Qed.

(** ** The interpreter lock *)

Lemma locks_after_app d t1 t2 :
  locks_after d (t1 ++ t2)
  = match locks_after d t1 with
    | Some d' => locks_after d' t2
    | None => None
    end.
Proof.
  revert d. induction t1 as [|ev t1 IH]; intros d; [reflexivity|].
  destruct ev, d; cbn; auto.
Qed.

Lemma inside_lock_nil : inside_lock [].
Proof. intros d. reflexivity. Qed.

Lemma inside_lock_app t1 t2 :
  inside_lock t1 -> inside_lock t2 -> inside_lock (t1 ++ t2).
Proof. intros H1 H2 d. rewrite locks_after_app, H1. apply H2. Qed.

Lemma lock_disciplined_app t1 t2 :
  lock_disciplined t1 -> lock_disciplined t2 -> lock_disciplined (t1 ++ t2).
Proof.
  unfold lock_disciplined. intros H1 H2. rewrite locks_after_app, H1. exact H2.
Qed.

(** Sequencing keeps both properties. *)
Lemma inside_lock_bind {A B} (m : M A) (f : A -> M B) :
  inside_lock (snd m) -> (forall a, inside_lock (snd (f a))) ->
  inside_lock (snd (m ≫= f)).
Proof.
  intros Hm Hf. destruct m as [[a|e|msg| |] t]; cbn in *; try exact Hm.
  specialize (Hf a). destruct (f a) as [o t']. cbn in *.
  apply inside_lock_app; assumption.
Qed.

Lemma lock_disciplined_bind {A B} (m : M A) (f : A -> M B) :
  lock_disciplined (snd m) -> (forall a, lock_disciplined (snd (f a))) ->
  lock_disciplined (snd (m ≫= f)).
Proof.
  intros Hm Hf. destruct m as [[a|e|msg| |] t]; cbn in *; try exact Hm.
  specialize (Hf a). destruct (f a) as [o t']. cbn in *.
  apply lock_disciplined_app; assumption.
Qed.

(** A guarded block may be entered with or without the lock held. *)
Lemma inside_lock_ensure_gil {A} (m : M A) :
  inside_lock (snd m) -> inside_lock (snd (ensure_gil m)).
Proof.
  intros Hm d. destruct m as [o t]. cbn in *.
  rewrite locks_after_app, Hm. reflexivity.
Qed.

Lemma lock_disciplined_ensure_gil {A} (m : M A) :
  inside_lock (snd m) -> lock_disciplined (snd (ensure_gil m)).
Proof.
  intros Hm. destruct m as [o t]. unfold lock_disciplined. cbn in *.
  rewrite locks_after_app, Hm. reflexivity.
Qed.

(** The handler adds its two events after the body, with no lock held. *)
Lemma lock_disciplined_rethrow {A} (m : M A) :
  lock_disciplined (snd m) ->
  lock_disciplined (snd (rethrow_as_datasource_exception m)).
Proof.
  intros Hm. destruct m as [[a|e|msg| |] t]; try exact Hm.
  rewrite rethrow_python_error_trace. cbn [snd] in *.
  apply lock_disciplined_app; [exact Hm | reflexivity].
Qed.

Lemma inside_lock_attr o key : inside_lock (snd (attr o key)).
Proof. unfold attr. destruct (attr_of o key); intros d; reflexivity. Qed.

Lemma inside_lock_get_param self key : inside_lock (snd (get_param self key)).
Proof.
  unfold get_param. apply inside_lock_bind; [apply inside_lock_attr|].
  intros v. destruct (is_none v); apply inside_lock_nil.
Qed.

Lemma inside_lock_has_param self key : inside_lock (snd (has_param self key)).
Proof.
  unfold has_param. apply inside_lock_bind; [apply inside_lock_get_param|].
  intros p. apply inside_lock_nil.
Qed.

Lemma inside_lock_value {A} (p : option A) : inside_lock (snd (value p)).
Proof. destruct p; apply inside_lock_nil. Qed.

Lemma inside_lock_extract_long v : inside_lock (snd (extract_long v)).
Proof.
  destruct v; try apply inside_lock_nil. cbn.
  destruct ((LONG_MIN <=? z) && (z <=? LONG_MAX)); apply inside_lock_nil.
Qed.

Lemma inside_lock_extract_double v : inside_lock (snd (extract_double v)).
Proof.
  destruct v; try apply inside_lock_nil. cbn.
  destruct (long_as_double z); apply inside_lock_nil.
Qed.

Lemma inside_lock_call py_call f args : inside_lock (snd (call py_call f args)).
Proof. rewrite call_trace. intros d. reflexivity. Qed.

Lemma inside_lock_python_featureset r :
  inside_lock (snd (python_featureset.python_featureset r)).
Proof.
  destruct r as [| | |s| | |items fin| | |]; try (intros n; reflexivity).
  - unfold python_featureset.python_featureset, stl_input_iterator.from_object.
    cbn. destruct (chars_of s); intros n; reflexivity.
  - unfold python_featureset.python_featureset, stl_input_iterator.from_object.
    cbn. destruct items; [destruct fin|]; intros n; reflexivity.
Qed.

(** One step through a block that runs under the lock. *)
Ltac inside_lock_step :=
  first
    [ apply inside_lock_nil
    | apply inside_lock_attr
    | apply inside_lock_get_param
    | apply inside_lock_has_param
    | apply inside_lock_value
    | apply inside_lock_extract_long
    | apply inside_lock_extract_double
    | apply inside_lock_call
    | apply inside_lock_python_featureset
    | apply inside_lock_bind; [|intros ?]
    | match goal with
      | |- inside_lock (snd (if ?b then _ else _)) => destruct b
      end ].

(** The block of calls [features()] and [features_at_point()] make. *)
Lemma inside_lock_query_block py_call self key arg :
  inside_lock
    (snd (p ← get_param self key;
          f ← value p;
          features ← call py_call f [arg];
          if is_none features then mret (None : featureset_ptr)
          else fs ← python_featureset.python_featureset features;
               mret (Some fs))).
Proof. repeat inside_lock_step. Qed.

Lemma lock_disciplined_envelope box self :
  lock_disciplined (snd (envelope box self)).
Proof.
  unfold envelope. apply lock_disciplined_rethrow, lock_disciplined_ensure_gil.
  repeat inside_lock_step.
Qed.

(** X1: in every run of the five methods of the datasource, whatever the
    Python object and whatever its callables do, each attribute read on
    the datasource and its envelope, each call of its callables and each
    iterator step happens with the lock held, and the lock is given back
    as often as it was taken on every way out.  The handler's own work in
    the interpreter (fetching the pending error, importing [traceback],
    looking up and calling [format_exception], joining the lines) is not
    under the lock: it happens after the adapter has given the lock back,
    with no lock of the adapter held. *)
Theorem datasource_methods_keep_lock_discipline
    (py_call : nat -> list pyobj -> pyresult) (box : box2d)
    (intersects : box2d -> box2d -> bool) (self : t)
    (q : query) (pt : coord2d) (tol : float) :
  lock_disciplined (snd (type self))
  /\ lock_disciplined (snd (envelope box self))
  /\ lock_disciplined (snd (get_geometry_type self))
  /\ lock_disciplined (snd (features py_call box intersects self q))
  /\ lock_disciplined (snd (features_at_point py_call self pt tol)).
Proof.
  split; [|split; [|split; [|split]]].
  - unfold type. apply lock_disciplined_rethrow, lock_disciplined_ensure_gil.
    repeat inside_lock_step.
  - apply lock_disciplined_envelope.
  - unfold get_geometry_type.
    apply lock_disciplined_rethrow, lock_disciplined_ensure_gil.
    repeat inside_lock_step.
  - unfold features. apply lock_disciplined_rethrow.
    apply lock_disciplined_bind; [apply lock_disciplined_envelope|].
    intros extent. destruct (intersects extent (get_bbox q)); [|reflexivity].
    apply lock_disciplined_ensure_gil, inside_lock_query_block.
  - unfold features_at_point.
    apply lock_disciplined_rethrow, lock_disciplined_ensure_gil.
    apply inside_lock_query_block.
Qed.

(** ** How the methods end *)

Lemma orderly_bind {A B} (m : M A) (f : A -> M B) :
  orderly m -> (forall a, orderly (f a)) -> orderly (m ≫= f).
Proof.
  unfold orderly. intros Hm Hf.
  destruct m as [[a|e|msg| |] t]; cbn in *; try exact Hm.
  specialize (Hf a). destruct (f a) as [o t']. exact Hf.
Qed.

Lemma orderly_ensure_gil {A} (m : M A) : orderly m -> orderly (ensure_gil m).
Proof. unfold orderly. destruct m as [o t]. trivial. Qed.

Lemma settled_orderly {A} (m : M A) : settled m -> orderly m.
Proof. unfold settled, orderly. destruct (fst m); trivial. Qed.

(** The handler turns the Python error of an orderly body into a
    [datasource_exception] with the error's text, which is not empty,
    unless rendering the error raises in its turn. *)
Lemma settled_rethrow {A} (m : M A) :
  orderly m -> settled (rethrow_as_datasource_exception m).
Proof.
  unfold orderly, settled. destruct m as [[a|e|msg| |] t]; cbn; trivial.
  intros _. destruct (exc_format_error e) as [err|] eqn:Hf.
  - rewrite (rethrow_unrenderable_error (A := A) e t err Hf). cbn.
    exists t. reflexivity.
  - destruct (rethrow_python_error (A := A) e t Hf) as (t' & -> & _). cbn.
    apply exception_text_nonempty.
Qed.

Lemma orderly_attr o key : orderly (attr o key).
Proof. unfold orderly, attr. cbn. destruct (attr_of o key); exact I. Qed.

Lemma orderly_get_param self key : orderly (get_param self key).
Proof.
  unfold get_param. apply orderly_bind; [apply orderly_attr|].
  intros v. destruct (is_none v); exact I.
Qed.

Lemma orderly_has_param self key : orderly (has_param self key).
Proof.
  unfold has_param. apply orderly_bind; [apply orderly_get_param|].
  intros p. exact I.
Qed.

Lemma orderly_value {A} (p : option A) : orderly (value p).
Proof. destruct p; exact I. Qed.

Lemma orderly_mret {A} (a : A) : orderly (mret a).
Proof. exact I. Qed.

Lemma orderly_extract_long v : orderly (extract_long v).
Proof.
  destruct v; try exact I. unfold orderly. cbn.
  destruct ((LONG_MIN <=? z) && (z <=? LONG_MAX)); exact I.
Qed.

Lemma orderly_extract_double v : orderly (extract_double v).
Proof.
  destruct v; try exact I. unfold orderly. cbn.
  destruct (long_as_double z); exact I.
Qed.

Lemma orderly_call py_call f args : orderly (call py_call f args).
Proof.
  unfold orderly, call. cbn. destruct f; try exact I.
  destruct (py_call id args); exact I.
Qed.

Lemma orderly_python_featureset r :
  orderly (python_featureset.python_featureset r).
Proof.
  destruct r as [| | |s| | |items fin| | |]; try exact I.
  - unfold orderly, python_featureset.python_featureset,
      stl_input_iterator.from_object.
    cbn. destruct (chars_of s); exact I.
  - unfold orderly, python_featureset.python_featureset,
      stl_input_iterator.from_object.
    cbn. destruct items; [destruct fin|]; exact I.
Qed.

Lemma orderly_throw_datasource_exception {A} (msg : string) :
  msg <> "" -> orderly (throw_datasource_exception msg : M A).
Proof. intros H. exact H. Qed.

Ltac orderly_step :=
  first
    [ apply orderly_mret
    | apply orderly_attr
    | apply orderly_get_param
    | apply orderly_has_param
    | apply orderly_value
    | apply orderly_extract_long
    | apply orderly_extract_double
    | apply orderly_call
    | apply orderly_python_featureset
    | apply orderly_throw_datasource_exception; discriminate
    | apply orderly_bind; [|intros ?]
    | match goal with
      | |- orderly (if ?b then _ else _) => destruct b
      end ].

Lemma orderly_query_block py_call self key arg :
  orderly
    (p ← get_param self key;
     f ← value p;
     features ← call py_call f [arg];
     if is_none features then mret (None : featureset_ptr)
     else fs ← python_featureset.python_featureset features;
          mret (Some fs)).
Proof. repeat orderly_step. Qed.

Lemma settled_envelope box self : settled (envelope box self).
Proof.
  unfold envelope. apply settled_rethrow, orderly_ensure_gil.
  repeat orderly_step.
Qed.

(** X3: whatever the Python object and its callables do, each of the five
    methods of the datasource ends in one of four ways: it returns, it
    throws a [datasource_exception] whose message is not empty, it throws
    [bad_optional_access], or it lets [error_already_set] through from
    inside its handler, when rendering the pending error raises in its
    turn ([extractException] has no handler of its own); the trace then
    ends with the handler's fetch and rendering. *)
Theorem datasource_methods_end_settled
    (py_call : nat -> list pyobj -> pyresult) (box : box2d)
    (intersects : box2d -> box2d -> bool) (self : t)
    (q : query) (pt : coord2d) (tol : float) :
  settled (type self)
  /\ settled (envelope box self)
  /\ settled (get_geometry_type self)
  /\ settled (features py_call box intersects self q)
  /\ settled (features_at_point py_call self pt tol).
Proof.
  split; [|split; [|split; [|split]]].
  - unfold type. apply settled_rethrow, orderly_ensure_gil.
    repeat orderly_step.
  - apply settled_envelope.
  - unfold get_geometry_type. apply settled_rethrow, orderly_ensure_gil.
    repeat orderly_step.
  - unfold features. apply settled_rethrow.
    apply orderly_bind; [apply settled_orderly, settled_envelope|].
    intros extent. destruct (intersects extent (get_bbox q)); [|exact I].
    apply orderly_ensure_gil, orderly_query_block.
  - unfold features_at_point. apply settled_rethrow, orderly_ensure_gil.
    apply orderly_query_block.
Qed.

(** ** More on [type()] and [get_geometry_type()] *)

(** The converter's error for a value that is not a Python integer. *)
Lemma extract_long_not_integer v :
  (forall z, v <> PyInt z) ->
  extract_long v
  = (PyErr (type_error "No registered converter was able to produce a C++ rvalue of type long"),
     []).
Proof. intros H. destruct v; try reflexivity. destruct (H z eq_refl). Qed.

(** X6: a "data_type" that is neither [None] nor a Python integer, a
    float for one, is not truncated to a classification: [type()] throws a
    [datasource_exception] with the text of the converter's [TypeError]. *)
Theorem type_rejects_non_integer (self : t) (v : pyobj) :
  attr_of (datasource_ self) "data_type" = Some v ->
  is_none v = false ->
  (forall z, v <> PyInt z) ->
  fst (type self)
  = DsErr (exception_text
             (type_error "No registered converter was able to produce a C++ rvalue of type long")).
Proof.
  intros H Hv Hz.
  apply (type_not_convertible self v _ H Hv (extract_long_not_integer v Hz)).
  reflexivity.
Qed.

Lemma type_rejects_float_witness :
  fst (type (python_datasource float_data_type))
  = DsErr (exception_text
             (type_error "No registered converter was able to produce a C++ rvalue of type long")).
Proof.
  apply (type_rejects_non_integer (python_datasource float_data_type)
           (PyFloat 1.0)); [reflexivity | reflexivity | discriminate].
Defined.

(** X7: a Python integer that does not fit a C [long] is not wrapped
    around: [type()] throws a [datasource_exception] with the text of the
    [OverflowError]. *)
Theorem type_rejects_integer_beyond_long (self : t) (z : Z) :
  attr_of (datasource_ self) "data_type" = Some (PyInt z) ->
  z < LONG_MIN \/ LONG_MAX < z ->
  fst (type self)
  = DsErr (exception_text
             (overflow_error "Python int too large to convert to C long")).
Proof.
  intros H Hz.
  apply (type_not_convertible self (PyInt z) _ H eq_refl); [|reflexivity].
  cbn. destruct (Z.leb_spec LONG_MIN z); [|reflexivity].
  destruct (Z.leb_spec z LONG_MAX); [lia | reflexivity].
Qed.

Lemma type_rejects_integer_beyond_long_witness :
  fst (type (python_datasource (PyInstance {[ "data_type" := PyInt (2 ^ 63) ]})))
  = DsErr (exception_text
             (overflow_error "Python int too large to convert to C long")).
Proof.
  apply (type_rejects_integer_beyond_long
           (python_datasource (PyInstance {[ "data_type" := PyInt (2 ^ 63) ]}))
           (2 ^ 63)); [reflexivity | right; reflexivity].
Defined.

(** X5: [type()] ends in [bad_optional_access] exactly when "data_type" is
    there and is [None]; in every run it reads "data_type" once, reads no
    other attribute and calls nothing. *)
Theorem type_bad_optional_access_only_for_null (self : t) :
  (fst (type self) = BadOptional
   <-> attr_of (datasource_ self) "data_type" = Some PyNone)
  /\ attr_reads (snd (type self)) = ["data_type"]
  /\ calls (snd (type self)) = [].
Proof.
  unfold type, rethrow_as_datasource_exception, get_param, attr. cbn.
  destruct (attr_of (datasource_ self) "data_type") as [v|]; cbn.
  - destruct v; cbn;
      try (split; [split; [discriminate | intros [=]]
                  | split; reflexivity]).
    + split; [split; reflexivity | split; reflexivity].
    + destruct ((LONG_MIN <=? z) && (z <=? LONG_MAX)); cbn;
        (split; [split; [discriminate | intros [=]] | split; reflexivity]).
  - split; [split; discriminate | split; reflexivity].
Qed.

Lemma type_bad_optional_access_witness :
  fst (type (python_datasource null_data_type)) = BadOptional.
Proof.
  apply (type_bad_optional_access_only_for_null
           (python_datasource null_data_type)).
  reflexivity.
Defined.

Lemma type_integer_witness :
  fst (type (python_datasource sample_datasource)) = Ok (Datasource_t 0)
  /\ fst (type (python_datasource (PyInstance {[ "data_type" := PyInt 257 ]})))
     = Ok (Datasource_t 1).
Proof.
  split.
  - apply (type_integer (python_datasource sample_datasource) 0);
      [reflexivity | split; discriminate | lia].
  - apply (type_integer
             (python_datasource (PyInstance {[ "data_type" := PyInt 257 ]})) 257);
      [reflexivity | split; discriminate].
Defined.

Lemma type_absent_message_witness :
  exists msg,
    fst (type (python_datasource (PyInstance ∅))) = DsErr msg /\ msg <> "".
Proof.
  apply (type_absent_message_nonempty (python_datasource (PyInstance ∅))).
  reflexivity.
Defined.

(** X11: a "geometry_type" that is neither [None] nor a Python integer is
    not taken for a hint, nor for the absence of one: the call throws a
    [datasource_exception] with the text of the converter's [TypeError]. *)
Theorem get_geometry_type_rejects_non_integer (self : t) (v : pyobj) :
  attr_of (datasource_ self) "geometry_type" = Some v ->
  is_none v = false ->
  (forall z, v <> PyInt z) ->
  fst (get_geometry_type self)
  = DsErr (exception_text
             (type_error "No registered converter was able to produce a C++ rvalue of type long")).
Proof.
  intros H Hv Hz.
  apply (get_geometry_type_not_convertible self v _ H Hv
           (extract_long_not_integer v Hz)).
  reflexivity.
Qed.

Lemma get_geometry_type_rejects_string_witness :
  fst (get_geometry_type (python_datasource float_data_type))
  = DsErr (exception_text
             (type_error "No registered converter was able to produce a C++ rvalue of type long")).
Proof.
  apply (get_geometry_type_rejects_non_integer
           (python_datasource float_data_type) (PyStr "point"));
    [reflexivity | reflexivity | discriminate].
Defined.

Lemma get_geometry_type_null_witness :
  fst (get_geometry_type (python_datasource null_geometry_type)) = Ok None.
Proof.
  apply (get_geometry_type_null (python_datasource null_geometry_type)).
  reflexivity.
Defined.

Lemma get_geometry_type_integer_witness :
  fst (get_geometry_type (python_datasource sample_datasource))
  = Ok (Some (Datasource_geometry_t 3)).
Proof.
  apply (get_geometry_type_integer (python_datasource sample_datasource) 3);
    [reflexivity | split; discriminate | lia].
Defined.

(** X12: on a datasource whose "geometry_type" reads the same on both
    lookups (the objects of this model all do: an attribute is a plain
    value, not a property that changes between two reads),
    [get_geometry_type()] never ends in [bad_optional_access]: it returns
    or throws a [datasource_exception].  It looks "geometry_type" up once
    when the attribute is missing or [None] and twice when it has another
    value; it reads nothing else and calls nothing. *)
Theorem get_geometry_type_returns_or_throws_datasource_exception (self : t) :
  ((exists hint, fst (get_geometry_type self) = Ok hint)
   \/ (exists msg, fst (get_geometry_type self) = DsErr msg))
  /\ attr_reads (snd (get_geometry_type self))
     = match attr_of (datasource_ self) "geometry_type" with
       | Some v =>
           if is_none v then ["geometry_type"]
           else ["geometry_type"; "geometry_type"]
       | None => ["geometry_type"]
       end
  /\ calls (snd (get_geometry_type self)) = [].
Proof.
  unfold get_geometry_type, rethrow_as_datasource_exception, has_param,
    get_param, attr.
  cbn.
  destruct (attr_of (datasource_ self) "geometry_type") as [v|]; cbn.
  - destruct v; cbn;
      try (split; [right; eexists; reflexivity | split; reflexivity]).
    + split; [left; eexists; reflexivity | split; reflexivity].
    + destruct ((LONG_MIN <=? z) && (z <=? LONG_MAX)); cbn.
      * split; [left; eexists; reflexivity | split; reflexivity].
      * split; [right; eexists; reflexivity | split; reflexivity].
  - split; [right; eexists; reflexivity | split; reflexivity].
Qed.

(** ** More on [envelope()] *)

(** X13: what [box2d<double> box;] holds when it is declared never shows:
    [envelope()] ends the same way, with the same box and the same
    trace, whatever that content is. *)
Theorem envelope_independent_of_declared_box (box box' : box2d) (self : t) :
  envelope box self = envelope box' self.
Proof.
  unfold envelope, rethrow_as_datasource_exception, has_param, get_param, attr.
  cbn.
  destruct (attr_of (datasource_ self) "envelope") as [e|] eqn:He; cbn;
    [|reflexivity].
  destruct (is_none e) eqn:Hn; cbn; [reflexivity|].
  rewrite Hn; cbn.
  bound_step e "minx" ltac:(reflexivity).
  bound_step e "miny" ltac:(reflexivity).
  bound_step e "maxx" ltac:(reflexivity).
  bound_step e "maxy" ltac:(reflexivity).
  reflexivity.
Qed.

(** Enter [envelope()] and read the bounds before position [k]. *)
Ltac read_bounds_before He Hk Hbefore Hnone k :=
  destruct k as [|[|[|[|k]]]]; cbn in Hk; [| | | |discriminate];
  injection Hk as <-;
  [ |
    destruct (Hbefore 0%nat "minx") as (?w0 & ?d0 & ?H0 & ?C0);
      [lia | reflexivity |] |
    destruct (Hbefore 0%nat "minx") as (?w0 & ?d0 & ?H0 & ?C0);
      [lia | reflexivity |];
    destruct (Hbefore 1%nat "miny") as (?w1 & ?d1 & ?H1 & ?C1);
      [lia | reflexivity |] |
    destruct (Hbefore 0%nat "minx") as (?w0 & ?d0 & ?H0 & ?C0);
      [lia | reflexivity |];
    destruct (Hbefore 1%nat "miny") as (?w1 & ?d1 & ?H1 & ?C1);
      [lia | reflexivity |];
    destruct (Hbefore 2%nat "maxx") as (?w2 & ?d2 & ?H2 & ?C2);
      [lia | reflexivity |] ];
  unfold envelope;
  rewrite (has_param_value _ _ _ He Hnone); cbn;
  rewrite (get_param_value _ _ _ He Hnone); cbn;
  rewrite Hnone; cbn;
  repeat match goal with
         | Hw : attr_of ?e ?f = Some ?w, Cw : extract_double ?w = (Ok _, [])
           |- context [attr ?e ?f] => read_bound Hw Cw
         end.

(** X14: an envelope object that lacks one of the four bounds: when the
    bounds before it convert, [envelope()] throws a [datasource_exception]
    with the text of the [AttributeError] for that bound, and reads no
    bound after it. *)
Theorem envelope_missing_bound
    (box : box2d) (self : t) (e : pyobj) (k : nat) (field : string) :
  attr_of (datasource_ self) "envelope" = Some e ->
  is_none e = false ->
  envelope_fields !! k = Some field ->
  bounds_before_convert e k ->
  attr_of e field = None ->
  fst (envelope box self) = DsErr (exception_text (attribute_error field))
  /\ attr_reads (snd (envelope box self))
     = "envelope" :: "envelope" :: take (S k) envelope_fields.
Proof.
  intros He Hnone Hk Hbefore Hv.
  read_bounds_before He Hk Hbefore Hnone k;
    rewrite (attr_absent _ _ Hv); split; reflexivity.
Qed.

Lemma envelope_missing_maxx_witness :
  fst (envelope sample_default_box
         (python_datasource (PyInstance {[ "envelope" := envelope_without_maxx ]})))
  = DsErr (exception_text (attribute_error "maxx"))
  /\ attr_reads (snd (envelope sample_default_box
                        (python_datasource
                           (PyInstance {[ "envelope" := envelope_without_maxx ]}))))
     = ["envelope"; "envelope"; "minx"; "miny"; "maxx"].
Proof.
  apply (envelope_missing_bound sample_default_box
           (python_datasource (PyInstance {[ "envelope" := envelope_without_maxx ]}))
           envelope_without_maxx 2%nat "maxx"); try reflexivity.
  intros j f Hj Hf. destruct j as [|[|j]]; [| |lia]; injection Hf as <-.
  - exists (PyFloat (-10.0)), (-10.0)%float. split; reflexivity.
  - exists (PyFloat (-5.0)), (-5.0)%float. split; reflexivity.
Defined.

(** X15: a bound that is a Python integer beyond the range of a double
    passes the check and fails in the conversion: when the bounds before
    it convert, [envelope()] throws a [datasource_exception] with the text
    of the [OverflowError], which does not name the bound, and reads no
    bound after it. *)
Theorem envelope_bound_beyond_double
    (box : box2d) (self : t) (e : pyobj) (k : nat) (field : string) (z : Z) :
  attr_of (datasource_ self) "envelope" = Some e ->
  envelope_fields !! k = Some field ->
  bounds_before_convert e k ->
  attr_of e field = Some (PyInt z) ->
  long_as_double z = None ->
  fst (envelope box self) = DsErr (exception_text float_overflow)
  /\ attr_reads (snd (envelope box self))
     = "envelope" :: "envelope" :: take (S k) envelope_fields.
Proof.
  intros He Hk Hbefore Hv Hz.
  pose proof (attr_of_not_none _ _ _ Hv) as Hnone.
  read_bounds_before He Hk Hbefore Hnone k;
    rewrite (attr_present _ _ _ Hv); cbn; rewrite Hz; split; reflexivity.
Qed.

Lemma envelope_huge_maxx_witness :
  fst (envelope sample_default_box
         (python_datasource (PyInstance {[ "envelope" := huge_maxx_envelope ]})))
  = DsErr (exception_text float_overflow)
  /\ attr_reads (snd (envelope sample_default_box
                        (python_datasource
                           (PyInstance {[ "envelope" := huge_maxx_envelope ]}))))
     = ["envelope"; "envelope"; "minx"; "miny"; "maxx"].
Proof.
  apply (envelope_bound_beyond_double sample_default_box
           (python_datasource (PyInstance {[ "envelope" := huge_maxx_envelope ]}))
           huge_maxx_envelope 2%nat "maxx" (10 ^ 400)); try reflexivity.
  intros j f Hj Hf. destruct j as [|[|j]]; [| |lia]; injection Hf as <-.
  - exists (PyFloat (-10.0)), (-10.0)%float. split; reflexivity.
  - exists (PyFloat (-5.0)), (-5.0)%float. split; reflexivity.
Defined.

(** ** More on [features()] and [features_at_point()] *)

Lemma envelope_ok_calls box self extent t0 :
  envelope box self = (Ok extent, t0) -> calls t0 = [].
Proof.
  intros H. destruct (envelope_shape box self) as (Hc & _).
  rewrite H in Hc. exact Hc.
Qed.

(** Enter [features()] past an envelope that the query box intersects,
    up to the call of the "features" attribute. *)
Ltac enter_features Henv Hin Hf Hnone :=
  unfold features; rewrite Henv; cbn; rewrite Hin; cbn;
  rewrite (get_param_value _ _ _ Hf Hnone); cbn.

(** X16: for a query box that intersects the envelope, when the
    "features" callable returns [None], [features(query)] returns the
    empty featureset, having called the callable once, with the query as
    its only argument. *)
Theorem features_callable_returns_none
    (py_call : nat -> list pyobj -> pyresult) (box : box2d)
    (intersects : box2d -> box2d -> bool) (self : t) (q : query)
    (extent : box2d) (t0 : list event) (f : pyobj) :
  envelope box self = (Ok extent, t0) ->
  intersects extent (get_bbox q) = true ->
  attr_of (datasource_ self) "features" = Some f ->
  is_none f = false ->
  fst (call py_call f [PyQuery q]) = Ok PyNone ->
  fst (features py_call box intersects self q) = Ok None
  /\ calls (snd (features py_call box intersects self q)) = [(f, [PyQuery q])].
Proof.
  intros Henv Hin Hf Hnone Hcall.
  pose proof (call_trace py_call f [PyQuery q]) as Htrace.
  pose proof (envelope_ok_calls _ _ _ _ Henv) as Hcalls.
  split.
  - enter_features Henv Hin Hf Hnone.
    destruct (call py_call f [PyQuery q]) as [o tc]. cbn in Hcall. subst o.
    reflexivity.
  - unfold features. rewrite rethrow_calls.
    rewrite Henv; cbn; rewrite Hin; cbn.
    rewrite (get_param_value _ _ _ Hf Hnone); cbn.
    destruct (call py_call f [PyQuery q]) as [o tc]. cbn in Hcall, Htrace.
    subst o tc. cbn. rewrite calls_app, Hcalls. reflexivity.
Qed.

Lemma features_callable_returns_none_witness :
  fst (features other_py_call sample_default_box box2d_intersects
         (python_datasource (sample_with (PyCallable 0) (PyCallable 0)))
         near_query) = Ok None
  /\ calls (snd (features other_py_call sample_default_box box2d_intersects
                   (python_datasource (sample_with (PyCallable 0) (PyCallable 0)))
                   near_query))
     = [(PyCallable 0, [PyQuery near_query])].
Proof.
  apply (features_callable_returns_none other_py_call sample_default_box
           box2d_intersects
           (python_datasource (sample_with (PyCallable 0) (PyCallable 0)))
           near_query (Box2d (-10.0) (-5.0) 10.0 5.0)
           (snd (envelope sample_default_box
                   (python_datasource (sample_with (PyCallable 0) (PyCallable 0)))))
           (PyCallable 0)); reflexivity.
Defined.

(** X17: for a query box that intersects the envelope, when the
    "features" callable returns an iterable of N features,
    [features(query)] returns a featureset whose first N calls of
    [next()] yield these features in order, and which is then at its end:
    the next call yields the null pointer. *)
Theorem features_yields_the_callable_s_features
    (py_call : nat -> list pyobj -> pyresult) (box : box2d)
    (intersects : box2d -> box2d -> bool) (self : t) (q : query)
    (extent : box2d) (t0 : list event) (f : pyobj) (fl : list feature) :
  envelope box self = (Ok extent, t0) ->
  intersects extent (get_bbox q) = true ->
  attr_of (datasource_ self) "features" = Some f ->
  is_none f = false ->
  fst (call py_call f [PyQuery q]) = Ok (PyIterable (map PyFeature fl) None) ->
  exists fs,
    fst (features py_call box intersects self q) = Ok (Some fs)
    /\ map fst (fst (python_featureset.pull (length fl) fs))
       = map (fun x => Ok (Some x)) fl
    /\ fst (python_featureset.next
              (snd (python_featureset.pull (length fl) fs)))
       = (Ok None, []).
Proof.
  intros Henv Hin Hf Hnone Hcall.
  exists (constructed fl). split; [|split].
  - enter_features Henv Hin Hf Hnone.
    destruct (call py_call f [PyQuery q]) as [o tc]. cbn in Hcall. subst o.
    cbn. rewrite python_featureset_constructed. reflexivity.
  - rewrite pull_constructed. cbn [fst]. rewrite map_map. reflexivity.
  - rewrite pull_constructed. reflexivity.
Qed.

Lemma features_three_features_witness :
  exists fs,
    fst (features sample_py_call sample_default_box box2d_intersects
           (python_datasource sample_datasource) near_query) = Ok (Some fs)
    /\ map fst (fst (python_featureset.pull 3 fs))
       = [Ok (Some (Feature 1)); Ok (Some (Feature 2)); Ok (Some (Feature 3))]
    /\ fst (python_featureset.next (snd (python_featureset.pull 3 fs)))
       = (Ok None, []).
Proof.
  apply (features_yields_the_callable_s_features sample_py_call
           sample_default_box box2d_intersects
           (python_datasource sample_datasource) near_query
           (Box2d (-10.0) (-5.0) 10.0 5.0)
           (snd (envelope sample_default_box (python_datasource sample_datasource)))
           (PyCallable 0) [Feature 1; Feature 2; Feature 3]); reflexivity.
Defined.

(** X18: for a query box that intersects the envelope, a "features"
    attribute that is [None] makes [features(query)] end in
    [bad_optional_access], not in a [datasource_exception]; nothing is
    called. *)
Theorem features_null_attribute_escapes_as_bad_optional_access
    (py_call : nat -> list pyobj -> pyresult) (box : box2d)
    (intersects : box2d -> box2d -> bool) (self : t) (q : query)
    (extent : box2d) (t0 : list event) :
  envelope box self = (Ok extent, t0) ->
  intersects extent (get_bbox q) = true ->
  attr_of (datasource_ self) "features" = Some PyNone ->
  fst (features py_call box intersects self q) = BadOptional
  /\ calls (snd (features py_call box intersects self q)) = [].
Proof.
  intros Henv Hin Hf.
  pose proof (envelope_ok_calls _ _ _ _ Henv) as Hcalls.
  split.
  - unfold features; rewrite Henv; cbn; rewrite Hin; cbn.
    rewrite (get_param_null _ _ Hf). reflexivity.
  - unfold features. rewrite rethrow_calls.
    rewrite Henv; cbn; rewrite Hin; cbn.
    rewrite (get_param_null _ _ Hf). cbn. rewrite calls_app, Hcalls.
    reflexivity.
Qed.

Lemma features_null_attribute_witness :
  fst (features other_py_call sample_default_box box2d_intersects
         (python_datasource (sample_with PyNone PyNone)) near_query)
  = BadOptional.
Proof.
  apply (features_null_attribute_escapes_as_bad_optional_access other_py_call
           sample_default_box box2d_intersects
           (python_datasource (sample_with PyNone PyNone)) near_query
           (Box2d (-10.0) (-5.0) 10.0 5.0)
           (snd (envelope sample_default_box
                   (python_datasource (sample_with PyNone PyNone)))));
    reflexivity.
Defined.

(** X19: for a query box that intersects the envelope, when the
    "features" callable raises, [features(query)] throws a
    [datasource_exception] whose message is the text of the raised
    error; when rendering that error raises in its turn, the second error
    leaves [features(query)] as [error_already_set]. *)
Theorem features_callable_raises
    (py_call : nat -> list pyobj -> pyresult) (box : box2d)
    (intersects : box2d -> box2d -> bool) (self : t) (q : query)
    (extent : box2d) (t0 : list event) (f : pyobj) (e : pyexc) :
  envelope box self = (Ok extent, t0) ->
  intersects extent (get_bbox q) = true ->
  attr_of (datasource_ self) "features" = Some f ->
  is_none f = false ->
  fst (call py_call f [PyQuery q]) = PyErr e ->
  (exc_format_error e = None ->
   fst (features py_call box intersects self q) = DsErr (exception_text e))
  /\ (forall err, exc_format_error e = Some err ->
      fst (features py_call box intersects self q) = PyErr (format_error err)).
Proof.
  intros Henv Hin Hf Hnone Hcall.
  enter_features Henv Hin Hf Hnone.
  destruct (call py_call f [PyQuery q]) as [o tc]. cbn in Hcall. subst o.
  cbn. split.
  - intros Hr. apply rethrow_python_error_outcome, Hr.
  - intros err Hr. rewrite (rethrow_unrenderable_error _ _ err Hr). reflexivity.
Qed.

Lemma features_callable_raises_witness :
  fst (features other_py_call sample_default_box box2d_intersects
         (python_datasource (sample_with (PyCallable 1) (PyCallable 1)))
         near_query)
  = DsErr (exception_text sample_error).
Proof.
  apply (features_callable_raises other_py_call sample_default_box
           box2d_intersects
           (python_datasource (sample_with (PyCallable 1) (PyCallable 1)))
           near_query (Box2d (-10.0) (-5.0) 10.0 5.0)
           (snd (envelope sample_default_box
                   (python_datasource (sample_with (PyCallable 1) (PyCallable 1)))))
           (PyCallable 1) sample_error); reflexivity.
Defined.

(** X20: without a "features_at_point" attribute, [features_at_point()]
    throws a [datasource_exception] with the text of the
    [AttributeError]; with the attribute set to [None] it ends in
    [bad_optional_access].  Either way nothing is called. *)
Theorem features_at_point_without_callable
    (py_call : nat -> list pyobj -> pyresult) (self : t)
    (pt : coord2d) (tol : float) :
  (attr_of (datasource_ self) "features_at_point" = None ->
   fst (features_at_point py_call self pt tol)
   = DsErr (exception_text (attribute_error "features_at_point"))
   /\ calls (snd (features_at_point py_call self pt tol)) = [])
  /\ (attr_of (datasource_ self) "features_at_point" = Some PyNone ->
      fst (features_at_point py_call self pt tol) = BadOptional
      /\ calls (snd (features_at_point py_call self pt tol)) = []).
Proof.
  split; intros H; unfold features_at_point.
  - rewrite (get_param_absent _ _ H). split; reflexivity.
  - rewrite (get_param_null _ _ H). split; reflexivity.
Qed.

Lemma features_at_point_without_callable_witness :
  fst (features_at_point other_py_call
         (python_datasource sample_without_callables) sample_point 0.5)
  = DsErr (exception_text (attribute_error "features_at_point"))
  /\ fst (features_at_point other_py_call
            (python_datasource (sample_with PyNone PyNone)) sample_point 0.5)
     = BadOptional.
Proof.
  split.
  - apply (features_at_point_without_callable other_py_call
             (python_datasource sample_without_callables) sample_point 0.5%float).
    reflexivity.
  - apply (features_at_point_without_callable other_py_call
             (python_datasource (sample_with PyNone PyNone)) sample_point 0.5%float).
    reflexivity.
Defined.

(** X21: when the "features_at_point" callable returns a number, or an
    object that has no "__iter__" attribute, the featureset cannot be
    built: [features_at_point()] throws a [datasource_exception] with the
    text of the [AttributeError] for "__iter__". *)
Theorem features_at_point_result_not_iterable
    (py_call : nat -> list pyobj -> pyresult) (self : t)
    (pt : coord2d) (tol : float) (f r : pyobj) :
  attr_of (datasource_ self) "features_at_point" = Some f ->
  is_none f = false ->
  fst (call py_call f [PyCoord pt]) = Ok r ->
  (exists z, r = PyInt z) \/ (exists d, r = PyFloat d)
  \/ (exists attrs, r = PyInstance attrs /\ attr_of r "__iter__" = None) ->
  fst (features_at_point py_call self pt tol)
  = DsErr (exception_text (attribute_error "__iter__")).
Proof.
  intros Hf Hnone Hcall Hr. unfold features_at_point.
  rewrite (get_param_value _ _ _ Hf Hnone). cbn.
  destruct (call py_call f [PyCoord pt]) as [o tc]. cbn in Hcall. subst o.
  destruct Hr as [[z ->] | [[d ->] | (attrs & -> & _)]]; cbn;
    apply rethrow_python_error_outcome; reflexivity.
Qed.

Lemma features_at_point_result_not_iterable_witness :
  fst (features_at_point other_py_call
         (python_datasource (sample_with (PyCallable 2) (PyCallable 2)))
         sample_point 0.5)
  = DsErr (exception_text (attribute_error "__iter__")).
Proof.
  apply (features_at_point_result_not_iterable other_py_call
           (python_datasource (sample_with (PyCallable 2) (PyCallable 2)))
           sample_point 0.5%float (PyCallable 2) (PyInt 7));
    try reflexivity.
  left. exists 7. reflexivity.
Defined.

(** ** More on [python_featureset] *)

(** X2: the constructor, [next()] and the destructor of a featureset keep
    the lock discipline in every run: each iterator step happens with the
    lock held and the lock is given back on every way out, also when the
    step or the conversion of the item throws. *)
Theorem featureset_keeps_lock_discipline (r : pyobj) (fs : python_featureset.t) :
  lock_disciplined (snd (python_featureset.python_featureset r))
  /\ lock_disciplined (snd (fst (python_featureset.next fs)))
  /\ lock_disciplined (snd (fst (python_featureset.destroy fs))).
Proof.
  split; [|split].
  - destruct r as [| | |s| | |items fin| | |]; try reflexivity.
    + unfold python_featureset.python_featureset, stl_input_iterator.from_object.
      cbn. destruct (chars_of s); reflexivity.
    + unfold python_featureset.python_featureset, stl_input_iterator.from_object.
      cbn. destruct items; [destruct fin|]; reflexivity.
  - destruct fs as [[it ob] [it' ob']].
    unfold python_featureset.next, stl_input_iterator.equal,
      stl_input_iterator.post_increment, stl_input_iterator.dereference,
      stl_input_iterator.increment.
    cbn.
    destruct ob as [v|], ob' as [v'|]; cbn; try reflexivity.
    destruct v; cbn; try reflexivity;
      (destruct it as [[pend fin]|]; cbn; [|reflexivity];
       destruct pend; cbn; [destruct fin|]; reflexivity).
  - reflexivity.
Qed.

(** X22: an item that is neither a feature nor [None] blocks the
    featureset: [next()] lets the converter's Python error through as
    [error_already_set], the cursor stays on the item, and so every
    further call fails the same way and the end is never reached. *)
Theorem next_blocked_by_item_that_is_no_feature
    (fs : python_featureset.t) (v : pyobj) (e : pyexc) (k : nat) :
  stl_input_iterator.ob_ (python_featureset.begin_ fs) = Some v ->
  stl_input_iterator.ob_ (python_featureset.end_ fs) = None ->
  extract_feature_ptr v = (PyErr e, []) ->
  python_featureset.pull k fs
  = (repeat (PyErr e, [GilEnsure; GilRelease]) k, fs).
Proof.
  intros Hb He Hv.
  assert (Hnext : python_featureset.next fs
                  = ((PyErr e, [GilEnsure; GilRelease]), fs)).
  { destruct fs as [[it ob] [it' ob']]. cbn in Hb, He. subst ob ob'.
    unfold python_featureset.next, stl_input_iterator.equal,
      stl_input_iterator.post_increment, stl_input_iterator.dereference.
    cbn. rewrite Hv. reflexivity. }
  induction k as [|k IH]; [reflexivity|].
  cbn [python_featureset.pull]. rewrite Hnext, IH. reflexivity.
Qed.

Lemma next_blocked_witness :
  python_featureset.pull 3
    (standing_on_value (PyInt 7)
       {| pending := [PyFeature (Feature 1)]; finish := None |})
  = (repeat
       (PyErr (type_error "No registered converter was able to produce a C++ rvalue of type feature_ptr"),
        [GilEnsure; GilRelease]) 3,
     standing_on_value (PyInt 7)
       {| pending := [PyFeature (Feature 1)]; finish := None |}).
Proof.
  apply (next_blocked_by_item_that_is_no_feature
           (standing_on_value (PyInt 7)
              {| pending := [PyFeature (Feature 1)]; finish := None |})
           (PyInt 7)); reflexivity.
Defined.

(** X23: a null pointer from [next()] is not always the end: when the
    iterable yields [None] before a feature, [next()] returns the null
    pointer for the [None], having stepped the iterator, and the feature
    on the call after. *)
Theorem next_null_for_none_item_is_not_the_end
    (f : feature) (rest : list feature) :
  exists fs t0,
    python_featureset.python_featureset
      (PyIterable (PyNone :: map PyFeature (f :: rest)) None) = (Ok fs, t0)
    /\ fst (python_featureset.pull 2 fs)
       = [(Ok None, [GilEnsure; IterNext; GilRelease]);
          (Ok (Some f), [GilEnsure; IterNext; GilRelease])].
Proof. do 2 eexists. split; [reflexivity|]. destruct rest; reflexivity. Qed.

Lemma python_featureset_constructed_raising e fl f :
  python_featureset.python_featureset
    (PyIterable (map PyFeature (fl ++ [f])) (Some e))
  = (Ok (constructed_raising e (fl ++ [f])),
     [GilEnsure; GetIter (PyIterable (map PyFeature (fl ++ [f])) (Some e));
      IterNext; GilRelease]).
Proof. destruct fl; reflexivity. Qed.

Lemma pull_constructed_raising e fl f :
  python_featureset.pull (S (length fl)) (constructed_raising e (fl ++ [f]))
  = (map (fun x => (Ok (Some x), [GilEnsure; IterNext; GilRelease])) fl
       ++ [(PyErr e, [GilEnsure; IterNext; GilRelease])],
     at_end).
Proof.
  induction fl as [|a fl IH]; [reflexivity|].
  assert (Hnext : python_featureset.next (constructed_raising e ((a :: fl) ++ [f]))
                  = ((Ok (Some a), [GilEnsure; IterNext; GilRelease]),
                     constructed_raising e (fl ++ [f]))).
  { destruct fl; reflexivity. }
  change (length (a :: fl)) with (S (length fl)).
  cbn [python_featureset.pull]. rewrite Hnext.
  cbn [python_featureset.pull] in IH. rewrite IH. reflexivity.
Qed.

(** X24: when the iteration raises after its last item, that item is
    lost: the call of [next()] that read it lets the Python error through
    instead of returning it (the iterator is stepped before the value is
    handed out), and the featureset is at its end afterwards. *)
Theorem next_loses_last_item_when_iteration_raises
    (e : pyexc) (fl : list feature) (f : feature) :
  exists fs t0,
    python_featureset.python_featureset
      (PyIterable (map PyFeature (fl ++ [f])) (Some e)) = (Ok fs, t0)
    /\ map fst (fst (python_featureset.pull (S (length fl)) fs))
       = map (fun x => Ok (Some x)) fl ++ [PyErr e]
    /\ python_featureset.next (snd (python_featureset.pull (S (length fl)) fs))
       = ((Ok None, []), snd (python_featureset.pull (S (length fl)) fs)).
Proof.
  exists (constructed_raising e (fl ++ [f])). eexists.
  split; [apply python_featureset_constructed_raising|].
  rewrite pull_constructed_raising. cbn [fst snd]. split.
  - rewrite map_app, map_map. reflexivity.
  - apply next_at_end.
Qed.

(** The constructor builds a well-formed adapter, and [next()] keeps it
    well formed and defined. *)
Lemma python_featureset_well_formed r fs t0 :
  python_featureset.python_featureset r = (Ok fs, t0) -> well_formed fs.
Proof.
  destruct r as [| | |s| | |items fin| | |]; try discriminate.
  - unfold python_featureset.python_featureset, stl_input_iterator.from_object.
    cbn. destruct (chars_of s); intros [= <- _]; split; cbn; congruence.
  - unfold python_featureset.python_featureset, stl_input_iterator.from_object.
    cbn. destruct items; [destruct fin|]; try discriminate;
      intros [= <- _]; split; cbn; congruence.
Qed.

Lemma next_well_formed fs :
  well_formed fs ->
  well_formed (snd (python_featureset.next fs))
  /\ fst (fst (python_featureset.next fs)) <> Undefined.
Proof.
  destruct fs as [[it ob] [it' ob']]. intros [He Hb]. cbn in He, Hb. subst ob'.
  unfold python_featureset.next, stl_input_iterator.equal,
    stl_input_iterator.post_increment, stl_input_iterator.dereference,
    stl_input_iterator.increment.
  cbn.
  destruct ob as [v|]; cbn.
  2: { split; [split; cbn; congruence | discriminate]. }
  destruct it as [[pend fin]|]; [|destruct Hb; congruence].
  destruct v; cbn;
    try (split; [split; cbn; congruence | discriminate]);
    (destruct pend; cbn; [destruct fin|]; cbn;
     (split; [split; cbn; congruence | discriminate])).
Qed.

(** X25: a featureset built by the constructor never runs into undefined
    behaviour, whatever the iterable yields and however it ends: after
    any number of calls of [next()] the adapter is still well formed (a
    cursor that stands on an item has its iterator), and no call
    dereferenced a null handle. *)
Theorem featureset_never_undefined
    (r : pyobj) (fs : python_featureset.t) (t0 : list event) (k : nat) :
  python_featureset.python_featureset r = (Ok fs, t0) ->
  Forall (fun out => fst out <> Undefined) (fst (python_featureset.pull k fs))
  /\ well_formed (snd (python_featureset.pull k fs)).
Proof.
  intros Hc. apply python_featureset_well_formed in Hc. clear r t0.
  revert fs Hc. induction k as [|k IH]; intros fs Hwf.
  - split; [constructor | exact Hwf].
  - cbn [python_featureset.pull].
    destruct (next_well_formed fs Hwf) as [Hwf' Hdef].
    destruct (python_featureset.next fs) as [out fs'].
    cbn [fst snd] in Hwf', Hdef.
    destruct (IH fs' Hwf') as [Hall Hwf''].
    destruct (python_featureset.pull k fs') as [outs fs''].
    cbn [fst snd] in *. split; [constructor; assumption | exact Hwf''].
Qed.

Lemma featureset_never_undefined_witness :
  Forall (fun out => fst out <> Undefined)
    (fst (python_featureset.pull 5 (constructed [Feature 1; Feature 2; Feature 3])))
  /\ well_formed
       (snd (python_featureset.pull 5 (constructed [Feature 1; Feature 2; Feature 3]))).
Proof.
  apply (featureset_never_undefined sample_features
           (constructed [Feature 1; Feature 2; Feature 3])
           [GilEnsure; GetIter sample_features; IterNext; GilRelease] 5).
  reflexivity.
Defined.
